(** * Academic email drafter

    A shallow embedding of [app.py]: the prompt template built inside
    [generate_email_draft], the call to the chat-completions endpoint with
    its error handling, and the Streamlit script that drives both from the
    sidebar form and the session state.

    Python [str] values are modelled as [string] (the UTF-8 bytes of the
    text), the module namespace and [st.session_state] as finite maps keyed
    by name, exceptions by an explicit result type, and the effects of one
    script run (session writes, requests sent, widgets shown) by a world
    that is threaded through a small monad. *)

From Stdlib Require Import String Ascii List QArith Bool.
From stdpp Require Import gmap strings list fin_maps.

Local Open Scope stdpp_scope.

(** ** Python string primitives *)

Module Py.

(** The line break of the source file, [\n]. *)
Definition nl : string := String "010"%char EmptyString.

(** [bool(s)] for a [str]: only the empty string is falsy. *)
Definition truthy (s : string) : bool :=
  match s with
  | EmptyString => false
  | String _ _ => true
  end.

(** [bool(x)] for [None] or a [str], as returned by [os.environ.get]. *)
Definition truthy_opt (o : option string) : bool :=
  match o with
  | None => false
  | Some s => truthy s
  end.

(** [t in s] on strings. *)
Fixpoint contains (t s : string) : bool :=
  String.prefix t s ||
  match s with
  | EmptyString => false
  | String _ s' => contains t s'
  end.

(** [sep.join(parts)]. *)
Fixpoint join (sep : string) (parts : list string) : string :=
  match parts with
  | [] => ""
  | [x] => x
  | x :: rest => x +:+ sep +:+ join sep rest
  end.

(** [s.split('\n')]. *)
Fixpoint lines (s : string) : list string :=
  match s with
  | EmptyString => [""]
  | String c s' =>
      if Ascii.eqb c "010" then "" :: lines s'
      else match lines s' with
           | l :: ls => String c l :: ls
           | [] => [String c ""]
           end
  end.

(** No line break occurs in [s]. *)
Fixpoint single_line (s : string) : bool :=
  match s with
  | EmptyString => true
  | String c s' => negb (Ascii.eqb c "010") && single_line s'
  end.

(** Only blanks, tabs and line breaks, and at least one of them: the
    strings that [str.strip] empties although they are truthy. *)
Fixpoint blank (s : string) : bool :=
  match s with
  | EmptyString => true
  | String c s' =>
      (Ascii.eqb c " " || Ascii.eqb c "009" || Ascii.eqb c "010"
       || Ascii.eqb c "013") && blank s'
  end.

Definition whitespace_only (s : string) : bool := truthy s && blank s.

End Py.

(** ** The prompt template *)

Section Prompt.

Import Py.

(** The indentation every line of the triple-quoted literal carries. *)
Definition indent : string := "        ".

(** [{recipient_name if recipient_name else 'Colleague'}] *)
Definition recipient_field (recipient_name : string) : string :=
  if truthy recipient_name then recipient_name else "Colleague".

(** [{f'Relevant Paper/Manuscript Details: {paper_details}' if paper_details else ''}] *)
Definition paper_field (paper_details : string) : string :=
  if truthy paper_details
  then "Relevant Paper/Manuscript Details: " +:+ paper_details
  else "".

(** [{f'Other Specific Information: {other_info}' if other_info else ''}] *)
Definition other_field (other_info : string) : string :=
  if truthy other_info
  then "Other Specific Information: " +:+ other_info
  else "".

(** The f-string bound to [ai_prompt], one source line per line here. *)
Definition ai_prompt
    (prompt intent recipient_name paper_details other_info : string) : string :=
  nl +:+
  indent +:+ "Draft a professional academic email with the following details:" +:+ nl +:+
  nl +:+
  indent +:+ "Recipient Name: " +:+ recipient_field recipient_name +:+ nl +:+
  indent +:+ "Email Intent: " +:+ intent +:+ nl +:+
  indent +:+ "Core Message/Key Points: " +:+ prompt +:+ nl +:+
  indent +:+ paper_field paper_details +:+ nl +:+
  indent +:+ other_field other_info +:+ nl +:+
  nl +:+
  indent +:+ "Please structure the email appropriately with a subject line, salutation, body, and closing." +:+ nl +:+
  indent +:+ "Ensure the tone is professional and academic." +:+ nl +:+
  indent.

(** The same text, line by line. *)
Definition prompt_lines
    (prompt intent recipient_name paper_details other_info : string)
    : list string :=
  [ "";
    indent +:+ "Draft a professional academic email with the following details:";
    "";
    indent +:+ "Recipient Name: " +:+ recipient_field recipient_name;
    indent +:+ "Email Intent: " +:+ intent;
    indent +:+ "Core Message/Key Points: " +:+ prompt;
    indent +:+ paper_field paper_details;
    indent +:+ other_field other_info;
    "";
    indent +:+ "Please structure the email appropriately with a subject line, salutation, body, and closing.";
    indent +:+ "Ensure the tone is professional and academic.";
    indent ].

End Prompt.

(** ** Exceptions *)

(** The exception classes the program can meet, all of them subclasses of
    [Exception]: the faults of the client library (connection, credentials,
    provider status, unreadable response, construction of the client) and
    the interpreter's own [IndexError], [NameError] and [AttributeError]. *)
Inductive exn_class : Type :=
  | APIConnectionError
  | AuthenticationError
  | APIStatusError
  | APIResponseValidationError
  | OpenAIError
  | IndexError
  | NameError
  | AttributeError.

(** An exception object; [exn_text] is what [{e}] formats, [str(e)]. *)
Record exn : Type := Exn { exn_kind : exn_class; exn_text : string }.

(** A computation either returns or raises. *)
Inductive result (A : Type) : Type :=
  | Return (a : A)
  | Raise (e : exn).

Arguments Return {A} a.
Arguments Raise {A} e.

(** ** The chat-completions interface, as far as the program reads it *)

Module OpenAI.

Record message : Type := { role : string; content : string }.

Record request : Type := {
  model : string;
  messages : list message;
  max_tokens : Z;
  temperature : Q
}.

(** [response.choices[i].message.content] *)
Record choice : Type := { choice_message : message }.
Record response : Type := { choices : list choice }.

(** The object [openai.OpenAI(api_key=...)] builds. *)
Record client : Type := { api_key : string }.

End OpenAI.

(** What the remote endpoint answers to a request made through a client:
    a response, or a fault raised inside [client.chat.completions.create]. *)
Definition transport : Type :=
  OpenAI.client -> OpenAI.request -> result OpenAI.response.

(** ** Names, widgets and the world of one script run *)

(** The values module-level names are bound to. *)
Inductive pyobj : Type :=
  | PyNone
  | PyStr (s : string)
  | PyModule (name : string)
  | PyFunction (name : string)
  | PyClient (c : OpenAI.client).

(** The widgets of the main area whose appearance depends on the state. *)
Inductive widget : Type :=
  | st_error (body : string)
  | st_text_area (label value : string)
  | st_info_how_to_send
  | st_info_fill_in.

(** What a run does, in order: a write to [st.session_state], a request
    handed to the endpoint, a widget put on the page. *)
Inductive event : Type :=
  | Assign (key value : string)
  | Request (r : OpenAI.request)
  | Show (w : widget).

Record world : Type := {
  globals : gmap string pyobj;
  session_state : gmap string string;
  trace : list event
}.

(** Effectful code: it reads and writes the world, and returns or raises. *)
Definition py (A : Type) : Type := world -> result A * world.

Definition ret {A} (a : A) : py A := fun w => (Return a, w).

Definition raise {A} (e : exn) : py A := fun w => (Raise e, w).

Definition bind {A B} (m : py A) (k : A -> py B) : py B :=
  fun w =>
    match m w with
    | (Return a, w') => k a w'
    | (Raise e, w') => (Raise e, w')
    end.

(** [try: body / except Exception as e: handler]; what the body did to the
    world before it raised stays done. *)
Definition try_except {A} (body : py A) (handler : exn -> py A) : py A :=
  fun w =>
    match body w with
    | (Return a, w') => (Return a, w')
    | (Raise e, w') => handler e w'
    end.

Notation "'let*' x ':=' m 'in' k" := (bind m (fun x => k))
  (at level 10, x name, m at level 100, k at level 200).
Notation "m '>>' k" := (bind m (fun _ => k))
  (at level 90, right associativity).

Definition log (e : event) : py unit :=
  fun w => (Return tt,
            {| globals := globals w;
               session_state := session_state w;
               trace := trace w ++ [e] |}).

(** [name = value] at module level. *)
Definition bind_global (name : string) (value : pyobj) : py unit :=
  fun w => (Return tt,
            {| globals := <[name := value]> (globals w);
               session_state := session_state w;
               trace := trace w |}).

(** [globals()] *)
Definition get_globals : py (gmap string pyobj) :=
  fun w => (Return (globals w), w).

(** [name in namespace] *)
Definition name_in {V} (name : string) (ns : gmap string V) : bool :=
  match ns !! name with
  | Some _ => true
  | None => false
  end.

(** [st.session_state.key = value] *)
Definition assign (key value : string) : py unit :=
  fun w => (Return tt,
            {| globals := globals w;
               session_state := <[key := value]> (session_state w);
               trace := trace w ++ [Assign key value] |}).

(** [st.session_state.key] *)
Definition read (key : string) : py string :=
  fun w =>
    match session_state w !! key with
    | Some v => (Return v, w)
    | None =>
        (Raise (Exn AttributeError
                  ("st.session_state has no attribute " +:+ key)), w)
    end.

(** [key in st.session_state] *)
Definition in_session (key : string) : py bool :=
  fun w => (Return (name_in key (session_state w)), w).

Definition show (x : widget) : py unit := log (Show x).

(** The requests among the events of a trace, in order. *)
Fixpoint requests_of (t : list event) : list OpenAI.request :=
  match t with
  | [] => []
  | Request r :: t' => r :: requests_of t'
  | _ :: t' => requests_of t'
  end.

(** The widgets among the events of a trace, in order. *)
Fixpoint page_of (t : list event) : list widget :=
  match t with
  | [] => []
  | Show x :: t' => x :: page_of t'
  | _ :: t' => page_of t'
  end.

(** Every request of the trace comes after a write of the empty string to
    [error_message], with no other write to it in between. [cleared] tells
    whether the latest write to [error_message] was the empty string. *)
Fixpoint cleared_before_requests (cleared : bool) (t : list event) : bool :=
  match t with
  | [] => true
  | Assign k v :: t' =>
      if String.eqb k "error_message"
      then cleared_before_requests (negb (Py.truthy v)) t'
      else cleared_before_requests cleared t'
  | Request _ :: t' => cleared && cleared_before_requests cleared t'
  | Show _ :: t' => cleared_before_requests cleared t'
  end.

(** ** The generation client *)

Section Client.

Import Py.

(** [client.chat.completions.create(...)]: the request leaves, and the
    endpoint's answer or fault comes back. *)
Definition chat_completions_create
    (tr : transport) (c : OpenAI.client) (r : OpenAI.request)
    : py OpenAI.response :=
  let* _ := log (Request r) in
  fun w => (tr c r, w).

(** [xs[0]] *)
Definition first {A} (xs : list A) : py A :=
  match xs with
  | x :: _ => ret x
  | [] => raise (Exn IndexError "list index out of range")
  end.

(** The global name [client], read inside the function. *)
Definition load_client : py OpenAI.client :=
  let* G := get_globals in
  match G !! "client" with
  | Some (PyClient c) => ret c
  | Some _ => raise (Exn AttributeError "object has no attribute 'chat'")
  | None => raise (Exn NameError "name 'client' is not defined")
  end.

(** [locals()] on entry to [generate_email_draft]: its five parameters. *)
Definition locals_of
    (prompt intent recipient_name paper_details other_info : string)
    : gmap string pyobj :=
  <["prompt" := PyStr prompt]>
    (<["intent" := PyStr intent]>
       (<["recipient_name" := PyStr recipient_name]>
          (<["paper_details" := PyStr paper_details]>
             (<["other_info" := PyStr other_info]> ∅)))).

Definition system_message : OpenAI.message :=
  {| OpenAI.role := "system";
     OpenAI.content := "You are a helpful academic email drafting assistant." |}.

(** The keyword arguments of the call. *)
Definition chat_request (user_content : string) : OpenAI.request :=
  {| OpenAI.model := "gpt-3.5-turbo";
     OpenAI.messages :=
       [ system_message;
         {| OpenAI.role := "user"; OpenAI.content := user_content |} ];
     OpenAI.max_tokens := 500;
     OpenAI.temperature := 7 # 10 |}.

Definition not_configured : string :=
  "Error: OpenAI API not configured. Please set your API key as an environment variable.".

Definition generation_failed (e : exn) : string :=
  "Error generating email draft with OpenAI API: " +:+ exn_text e.

Definition generate_email_draft
    (tr : transport)
    (prompt intent recipient_name paper_details other_info : string)
    : py string :=
  let* G := get_globals in
  if negb (name_in "client"
             (locals_of prompt intent recipient_name paper_details other_info))
     && negb (name_in "client" G)
  then ret not_configured
  else
    try_except
      (let ai := ai_prompt prompt intent recipient_name paper_details other_info in
       let* c := load_client in
       let* response := chat_completions_create tr c (chat_request ai) in
       let* ch := first (OpenAI.choices response) in
       ret (OpenAI.content (OpenAI.choice_message ch)))
      (fun e => ret (generation_failed e)).

End Client.

(** ** The Streamlit script *)

(** What the process gives the script: its environment variables, and what
    constructing a client from a key does. Both are fixed for the life of
    the process; the script is run again from the top on every interaction. *)
Record process : Type := {
  environ : gmap string string;
  openai_OpenAI : string -> result OpenAI.client
}.

(** The entries of the intent select box. *)
Inductive intent : Type :=
  | Inquiry
  | Submission
  | ThankYou
  | CollaborationRequest
  | FollowUp
  | General.

Definition intent_label (i : intent) : string :=
  match i with
  | Inquiry => "Inquiry"
  | Submission => "Submission"
  | ThankYou => "Thank You"
  | CollaborationRequest => "Collaboration Request"
  | FollowUp => "Follow-up"
  | General => "General"
  end.

Definition email_intent_options : list string :=
  map intent_label
    [Inquiry; Submission; ThankYou; CollaborationRequest; FollowUp; General].

(** The values the sidebar widgets return in one run. *)
Record form : Type := {
  user_prompt : string;
  selected_intent : intent;
  recipient_name : string;
  paper_info : string;
  other_info : string;
  generate_button : bool
}.

Section Script.

Import Py.

Definition lift {A} (r : result A) : py A := fun w => (r, w).

Definition key_not_found : string :=
  "⚠️ OpenAI API Key not found in environment variables. Please set it.".

Definition please_enter_prompt : string :=
  "⚠️ Please enter a core prompt for your email in the sidebar.".

Definition api_not_configured : string :=
  "⚠️ OpenAI API not configured. Please set your API key as an environment variable.".

(** The names the three [import] statements bind. *)
Definition imports : gmap string pyobj :=
  <["st" := PyModule "streamlit"]>
    (<["os" := PyModule "os"]>
       (<["openai" := PyModule "openai"]> ∅)).

(** The configuration block at the top of the script. *)
Definition configure (P : process) : py unit :=
  try_except
    (let OPENAI_API_KEY := environ P !! "OPENAI_API_KEY" in
     let* _ := bind_global "OPENAI_API_KEY"
                 (match OPENAI_API_KEY with
                  | Some k => PyStr k
                  | None => PyNone
                  end) in
     match OPENAI_API_KEY with
     | Some k =>
         if negb (truthy k) then show (st_error key_not_found)
         else
           let* c := lift (openai_OpenAI P k) in
           bind_global "client" (PyClient c)
     | None => show (st_error key_not_found)
     end)
    (fun e =>
       show (st_error ("⚠️ Error configuring OpenAI API: " +:+ exn_text e))).

(** [if 'draft' not in st.session_state: ...] and the same for
    [error_message]. *)
Definition init_session_state : py unit :=
  let* has_draft := in_session "draft" in
  (if negb has_draft then assign "draft" "" else ret tt) >>
  let* has_error := in_session "error_message" in
  if negb has_error then assign "error_message" "" else ret tt.

(** The body of [if generate_button:]. At module level [locals()] is
    [globals()], so the test on [client] consults one namespace. *)
Definition generate_button_handler (tr : transport) (f : form) : py unit :=
  if negb (truthy (user_prompt f)) then
    assign "error_message" please_enter_prompt >>
    assign "draft" ""
  else
    assign "error_message" "" >>
    let* G := get_globals in
    if name_in "client" G || name_in "client" G then
      let* draft :=
        generate_email_draft tr
          (user_prompt f) (intent_label (selected_intent f))
          (recipient_name f) (paper_info f) (other_info f) in
      assign "draft" draft
    else
      assign "error_message" api_not_configured.

(** The draft region at the end of the script. *)
Definition draft_area : py unit :=
  let* draft := read "draft" in
  if truthy draft then
    show (st_text_area "Review and Edit Your Draft:" draft) >>
    show st_info_how_to_send
  else
    let* error_message := read "error_message" in
    if negb (truthy error_message) then show st_info_fill_in else ret tt.

(** One run of the script, top to bottom. The sidebar's widgets have
    already produced [f]; titles, rules and the footer are left out. *)
Definition app (P : process) (tr : transport) (f : form) : py unit :=
  configure P >>
  bind_global "generate_email_draft" (PyFunction "generate_email_draft") >>
  init_session_state >>
  let* error_message := read "error_message" in
  (if truthy error_message then show (st_error error_message) else ret tt) >>
  (if generate_button f then generate_button_handler tr f else ret tt) >>
  draft_area.

(** The world a run starts in: a fresh module namespace holding the
    imports, the session state the browser session has so far, nothing
    done yet. *)
Definition boot (ss : gmap string string) : world :=
  {| globals := imports; session_state := ss; trace := [] |}.

(** A run of the script on the session state [ss]. *)
Definition rerun (P : process) (tr : transport) (f : form)
    (ss : gmap string string) : result unit * world :=
  app P tr f (boot ss).

(** The session states a browser session can be in: it starts empty, and
    every interaction runs the script on the state the last run left. *)
Inductive reachable (P : process) : gmap string string -> Prop :=
  | reach_fresh : reachable P ∅
  | reach_rerun ss tr f :
      reachable P ss ->
      reachable P (session_state (snd (rerun P tr f ss))).

End Script.

(** ** Summaries used in the statements *)

Section Summaries.

Import Py.

(** What the [try] block of [generate_email_draft] turns the endpoint's
    answer into. *)
Definition draft_of (answer : result OpenAI.response) : string :=
  match answer with
  | Raise e => generation_failed e
  | Return response =>
      match OpenAI.choices response with
      | ch :: _ => OpenAI.content (OpenAI.choice_message ch)
      | [] => generation_failed (Exn IndexError "list index out of range")
      end
  end.

(** The client the configuration block ends up with, if any. *)
Definition client_of (P : process) : option OpenAI.client :=
  match environ P !! "OPENAI_API_KEY" with
  | Some k =>
      if truthy k
      then match openai_OpenAI P k with
           | Return c => Some c
           | Raise _ => None
           end
      else None
  | None => None
  end.

(** What the draft region puts on the page for a stored draft [d] and a
    stored error message [e]. *)
Definition area_page (d e : string) : list widget :=
  if truthy d then
    [st_text_area "Review and Edit Your Draft:" d; st_info_how_to_send]
  else if truthy e then []
  else [st_info_fill_in].

(** The lines of the instruction as the specification words it: the
    line of an optional detail is there when its field is non-empty and
    left out when the field is empty. Kept apart from [prompt_lines],
    which is what the template produces. *)
Definition specified_lines
    (prompt intent recipient_name paper_details other_info : string)
    : list string :=
  [ "";
    indent +:+ "Draft a professional academic email with the following details:";
    "";
    indent +:+ "Recipient Name: " +:+ recipient_field recipient_name;
    indent +:+ "Email Intent: " +:+ intent;
    indent +:+ "Core Message/Key Points: " +:+ prompt ]
  ++ (if truthy paper_details
      then [indent +:+ "Relevant Paper/Manuscript Details: " +:+ paper_details]
      else [])
  ++ (if truthy other_info
      then [indent +:+ "Other Specific Information: " +:+ other_info]
      else [])
  ++ [ "";
       indent +:+ "Please structure the email appropriately with a subject line, salutation, body, and closing.";
       indent +:+ "Ensure the tone is professional and academic.";
       indent ].

End Summaries.

(** ** Sample inputs *)

Module Sample.

(** A process with the key set, whose client construction succeeds. *)
Definition with_key : process :=
  {| environ := <["OPENAI_API_KEY" := "sk-test"]> ∅;
     openai_OpenAI := fun k => Return {| OpenAI.api_key := k |} |}.

(** A process without the key. *)
Definition without_key : process :=
  {| environ := ∅;
     openai_OpenAI := fun k => Return {| OpenAI.api_key := k |} |}.

Definition the_client : OpenAI.client := {| OpenAI.api_key := "sk-test" |}.

Definition a_choice (text : string) : OpenAI.choice :=
  {| OpenAI.choice_message :=
       {| OpenAI.role := "assistant"; OpenAI.content := text |} |}.

(** An endpoint that answers with one choice. *)
Definition answering : transport :=
  fun _ _ => Return {| OpenAI.choices := [a_choice "Dear Colleague,"] |}.

(** An endpoint that cannot be reached. *)
Definition unreachable : transport :=
  fun _ _ => Raise (Exn APIConnectionError "Connection error.").

(** An endpoint that answers with no choice at all. *)
Definition choiceless : transport :=
  fun _ _ => Return {| OpenAI.choices := [] |}.

Definition inquiry : form :=
  {| user_prompt := "Inquire about the neuroplasticity paper";
     selected_intent := Inquiry;
     recipient_name := "";
     paper_info := "";
     other_info := "";
     generate_button := true |}.

Definition no_prompt : form :=
  {| user_prompt := "";
     selected_intent := Inquiry;
     recipient_name := "Dr. Eleanor Vance";
     paper_info := "";
     other_info := "";
     generate_button := true |}.

Definition blank_prompt : form :=
  {| user_prompt := "  ";
     selected_intent := General;
     recipient_name := "";
     paper_info := "";
     other_info := "";
     generate_button := true |}.

(** A world in which the client is configured. *)
Definition configured_world : world :=
  {| globals := <["client" := PyClient the_client]> imports;
     session_state := ∅;
     trace := [] |}.

End Sample.

(** ** Further summaries *)

Section Counting.

(** The number of line breaks in [s], [s.count('\n')]. *)
Fixpoint breaks (s : string) : nat :=
  match s with
  | EmptyString => 0
  | String c s' => (if Ascii.eqb c "010" then 1 else 0) + breaks s'
  end.

(** The error box the script puts on the page for the error message a
    run finds stored when it starts. *)
Definition stored_error_box (e : string) : list event :=
  if Py.truthy e then [Show (st_error e)] else [].

(** What is known of the events [tc] of the configuration block: no
    request; only error boxes on the page; nothing at all when a client
    was built, the missing-key box when the key is absent or empty, and
    the box carrying the fault's text when building the client raised. *)
Definition configuration_events (P : process) (tc : list event) : Prop :=
  requests_of tc = []
  /\ (forall x, In x (page_of tc) -> exists m, x = st_error m)
  /\ (client_of P <> None -> tc = [])
  /\ (Py.truthy_opt (environ P !! "OPENAI_API_KEY") = false ->
      tc = [Show (st_error key_not_found)])
  /\ (forall k e,
        environ P !! "OPENAI_API_KEY" = Some k -> Py.truthy k = true ->
        openai_OpenAI P k = Raise e ->
        tc = [Show (st_error ("⚠️ Error configuring OpenAI API: " +:+ exn_text e))]).

End Counting.

(** ** Further sample inputs *)

Module MoreSamples.

(** A process with the key set, whose client construction raises. *)
Definition failing_constructor : process :=
  {| environ := <["OPENAI_API_KEY" := "sk-test"]> ∅;
     openai_OpenAI :=
       fun _ => Raise (Exn OpenAIError "The api_key client option must be set") |}.

(** An endpoint whose one choice has no text. *)
Definition silent : transport :=
  fun _ _ => Return {| OpenAI.choices := [Sample.a_choice ""] |}.

(** The button is not pressed. *)
Definition idle : form :=
  {| user_prompt := "Inquire about the neuroplasticity paper";
     selected_intent := Inquiry;
     recipient_name := "";
     paper_info := "";
     other_info := "";
     generate_button := false |}.

End MoreSamples.

(** * Properties *)

(** ** Strings *)

Section StringFacts.

Import Py.

Lemma app_cons (x : ascii) (a b : string) :
  String x a +:+ b = String x (a +:+ b).
Proof. reflexivity. Qed.

Lemma app_nil (b : string) : "" +:+ b = b.
Proof. reflexivity. Qed.

Lemma app_assoc_string (a b c : string) :
  (a +:+ b) +:+ c = a +:+ (b +:+ c).
Proof.
  induction a as [|x a IH]; [reflexivity |].
  rewrite !app_cons. f_equal. exact IH.
Qed.

Lemma prefix_app (t b : string) : String.prefix t (t +:+ b) = true.
Proof.
  induction t as [|x t IH]; [now destruct b |].
  rewrite app_cons. simpl.
  destruct (ascii_dec x x) as [_|ne]; [exact IH | now destruct ne].
Qed.

Lemma contains_prefix (t s : string) :
  String.prefix t s = true -> contains t s = true.
Proof. intros H. destruct s; cbn [contains]; rewrite H; reflexivity. Qed.

Lemma contains_here (t b : string) : contains t (t +:+ b) = true.
Proof. apply contains_prefix, prefix_app. Qed.

Lemma contains_skip (t a s : string) :
  contains t s = true -> contains t (a +:+ s) = true.
Proof.
  intros H. induction a as [|x a IH]; [exact H |].
  rewrite app_cons. simpl. rewrite IH. apply orb_true_r.
Qed.

Lemma truthy_false (s : string) : truthy s = false -> s = "".
Proof. destruct s; [reflexivity | discriminate]. Qed.

Lemma truthy_true (s : string) : truthy s = true -> s <> "".
Proof. destruct s; [discriminate | discriminate]. Qed.

Lemma lines_not_nil (s : string) : lines s <> [].
Proof.
  induction s as [|c s IH]; simpl; [discriminate |].
  destruct (Ascii.eqb c "010"); [discriminate |].
  destruct (lines s); discriminate.
Qed.

Lemma lines_single (a : string) : single_line a = true -> lines a = [a].
Proof.
  induction a as [|c a IH]; simpl; [reflexivity |].
  destruct (Ascii.eqb c "010"); simpl; [discriminate |].
  intros H. now rewrite (IH H).
Qed.

Lemma lines_break (a s : string) :
  single_line a = true -> lines (a +:+ nl +:+ s) = a :: lines s.
Proof.
  induction a as [|c a IH]; [reflexivity |].
  rewrite app_cons. simpl.
  destruct (Ascii.eqb c "010"); simpl; [discriminate |].
  intros H. now rewrite (IH H).
Qed.

Lemma single_line_app (a b : string) :
  single_line (a +:+ b) = single_line a && single_line b.
Proof.
  induction a as [|c a IH]; [reflexivity |].
  rewrite app_cons. simpl. rewrite IH. apply andb_assoc.
Qed.

Lemma lines_join (ls : list string) :
  ls <> [] -> forallb single_line ls = true -> lines (join nl ls) = ls.
Proof.
  induction ls as [|a ls IH]; [congruence |].
  intros _ H. simpl in H. apply andb_prop in H as [Ha Hls].
  destruct ls as [|b ls].
  - simpl. now apply lines_single.
  - change (join nl (a :: b :: ls)) with (a +:+ nl +:+ join nl (b :: ls)).
    rewrite (lines_break _ _ Ha). f_equal. apply IH; [discriminate | exact Hls].
Qed.

Lemma ai_prompt_join (p i r d o : string) :
  ai_prompt p i r d o = join nl (prompt_lines p i r d o).
Proof.
  unfold ai_prompt, prompt_lines. cbn [join].
  rewrite !app_assoc_string. reflexivity.
Qed.

Lemma single_line_recipient_field r :
  single_line r = true -> single_line (recipient_field r) = true.
Proof. unfold recipient_field. destruct (truthy r); [trivial | reflexivity]. Qed.

Lemma single_line_paper_field d :
  single_line d = true -> single_line (paper_field d) = true.
Proof.
  unfold paper_field. destruct (truthy d); [| reflexivity].
  intros H. rewrite single_line_app, H. reflexivity.
Qed.

Lemma single_line_other_field o :
  single_line o = true -> single_line (other_field o) = true.
Proof.
  unfold other_field. destruct (truthy o); [| reflexivity].
  intros H. rewrite single_line_app, H. reflexivity.
Qed.

Lemma ai_prompt_lines (p i r d o : string) :
  single_line p = true -> single_line i = true -> single_line r = true ->
  single_line d = true -> single_line o = true ->
  lines (ai_prompt p i r d o) = prompt_lines p i r d o.
Proof.
  intros Hp Hi Hr Hd Ho.
  rewrite ai_prompt_join. apply lines_join; [discriminate |].
  unfold prompt_lines. cbn [forallb].
  rewrite !single_line_app, Hp, Hi,
    (single_line_recipient_field _ Hr), (single_line_paper_field _ Hd),
    (single_line_other_field _ Ho).
  reflexivity.
Qed.

End StringFacts.

(** ** Running the monad *)

Section RunFacts.

Import Py.

Lemma bind_return {A B} (m : py A) (k : A -> py B) w a w' :
  m w = (Return a, w') -> bind m k w = k a w'.
Proof. unfold bind. now intros ->. Qed.

Lemma bind_raise {A B} (m : py A) (k : A -> py B) w e w' :
  m w = (Raise e, w') -> bind m k w = (Raise e, w').
Proof. unfold bind. now intros ->. Qed.

Lemma requests_of_app (t1 t2 : list event) :
  requests_of (t1 ++ t2) = requests_of t1 ++ requests_of t2.
Proof.
  induction t1 as [|[k v|r|x] t1 IH]; simpl; [reflexivity | exact IH | | exact IH].
  now rewrite IH.
Qed.

Lemma page_of_app (t1 t2 : list event) :
  page_of (t1 ++ t2) = page_of t1 ++ page_of t2.
Proof.
  induction t1 as [|[k v|r|x] t1 IH]; simpl; [reflexivity | exact IH | exact IH |].
  now rewrite IH.
Qed.

(** A stretch of trace without requests only changes what is known about
    the latest write to [error_message]. *)
Lemma cleared_quiet (t t2 : list event) :
  requests_of t = [] ->
  forall b, exists b',
    cleared_before_requests b (t ++ t2) = cleared_before_requests b' t2.
Proof.
  induction t as [|[k v|r|x] t IH]; simpl; intros Hq b.
  - now exists b.
  - destruct (String.eqb k "error_message"); now apply IH.
  - discriminate.
  - now apply IH.
Qed.

Lemma cleared_no_request (t : list event) (b : bool) :
  requests_of t = [] -> cleared_before_requests b t = true.
Proof.
  revert b. induction t as [|[k v|r|x] t IH]; simpl; intros b Hq.
  - reflexivity.
  - destruct (String.eqb k "error_message"); now apply IH.
  - discriminate.
  - now apply IH.
Qed.

Lemma client_not_local (p i r d o : string) :
  name_in "client" (locals_of p i r d o) = false.
Proof.
  unfold name_in, locals_of.
  rewrite !lookup_insert_ne by discriminate. rewrite lookup_empty. reflexivity.
Qed.

Lemma generate_unconfigured tr p i r d o G ss t :
  G !! "client" = None ->
  generate_email_draft tr p i r d o (Build_world G ss t)
  = (Return not_configured, Build_world G ss t).
Proof.
  intros HG. unfold generate_email_draft, bind, get_globals.
  cbn [globals]. rewrite client_not_local. unfold name_in. rewrite HG.
  reflexivity.
Qed.

Lemma generate_configured tr p i r d o G ss t c :
  G !! "client" = Some (PyClient c) ->
  generate_email_draft tr p i r d o (Build_world G ss t)
  = (Return (draft_of (tr c (chat_request (ai_prompt p i r d o)))),
     Build_world G ss (t ++ [Request (chat_request (ai_prompt p i r d o))])).
Proof.
  intros HG. unfold generate_email_draft, bind, get_globals.
  cbn [globals]. rewrite client_not_local. unfold name_in. rewrite HG.
  cbn [negb andb]. unfold try_except, load_client, bind, get_globals.
  cbn [globals]. rewrite HG.
  unfold ret, chat_completions_create, bind, log.
  cbn [globals session_state trace].
  destruct (tr c (chat_request (ai_prompt p i r d o))) as [resp|e]; [| reflexivity].
  cbn [draft_of]. destruct (OpenAI.choices resp) as [|ch rest]; reflexivity.
Qed.

Lemma configure_run P G ss t :
  G !! "client" = None ->
  exists G' t',
    configure P (Build_world G ss t) = (Return tt, Build_world G' ss (t ++ t'))
    /\ requests_of t' = []
    /\ G' !! "client" = PyClient <$> client_of P.
Proof.
  intros HG. unfold configure, client_of, try_except, bind, bind_global, show, log, lift.
  cbn [globals session_state trace].
  destruct (environ P !! "OPENAI_API_KEY") as [k|] eqn:Ek.
  - destruct (truthy k) eqn:Tk; cbn [negb].
    + destruct (openai_OpenAI P k) as [c|e] eqn:Ec.
      * eexists _, []. rewrite app_nil_r. split; [reflexivity |].
        split; [reflexivity |]. now rewrite lookup_insert_eq.
      * eexists _, [_]. split; [reflexivity |]. split; [reflexivity |].
        cbn [globals]. rewrite lookup_insert_ne by discriminate. exact HG.
    + eexists _, [_]. split; [reflexivity |]. split; [reflexivity |].
      cbn [globals]. rewrite lookup_insert_ne by discriminate. exact HG.
  - eexists _, [_]. split; [reflexivity |]. split; [reflexivity |].
    cbn [globals]. rewrite lookup_insert_ne by discriminate. exact HG.
Qed.

Lemma init_session_state_run G ss t :
  exists ss' t',
    init_session_state (Build_world G ss t)
    = (Return tt, Build_world G ss' (t ++ t'))
    /\ requests_of t' = [] /\ page_of t' = []
    /\ ss' !! "draft" = Some (default "" (ss !! "draft"))
    /\ ss' !! "error_message" = Some (default "" (ss !! "error_message")).
Proof.
  unfold init_session_state, bind, in_session, assign, ret, name_in.
  cbn [globals session_state trace].
  destruct (ss !! "draft") as [d|] eqn:Ed; cbn [negb globals session_state trace].
  - destruct (ss !! "error_message") as [e|] eqn:Ee; cbn [negb].
    + eexists _, []. rewrite app_nil_r.
      repeat split; try reflexivity; by simplify_map_eq.
    + eexists _, [_].
      repeat split; try reflexivity; by simplify_map_eq.
  - rewrite lookup_insert_ne by discriminate.
    destruct (ss !! "error_message") as [e|] eqn:Ee; cbn [negb].
    + eexists _, [_].
      repeat split; try reflexivity; by simplify_map_eq.
    + eexists _, ([_] ++ [_]). rewrite app_assoc.
      repeat split; try reflexivity; by simplify_map_eq.
Qed.

End RunFacts.

(** ** Running the script *)

Section ScriptFacts.

Import Py.

Lemma handler_empty_prompt tr f G ss t :
  truthy (user_prompt f) = false ->
  generate_button_handler tr f (Build_world G ss t)
  = (Return tt,
     Build_world G
       (<["draft" := ""]> (<["error_message" := please_enter_prompt]> ss))
       (t ++ [Assign "error_message" please_enter_prompt; Assign "draft" ""])).
Proof.
  intros Hp. unfold generate_button_handler. rewrite Hp. cbn [negb].
  unfold bind, assign. cbn [globals session_state trace].
  now rewrite <- app_assoc.
Qed.

Lemma handler_unconfigured tr f G ss t :
  truthy (user_prompt f) = true ->
  G !! "client" = None ->
  generate_button_handler tr f (Build_world G ss t)
  = (Return tt,
     Build_world G
       (<["error_message" := api_not_configured]>
          (<["error_message" := ""]> ss))
       (t ++ [Assign "error_message" ""; Assign "error_message" api_not_configured])).
Proof.
  intros Hp HG. unfold generate_button_handler. rewrite Hp. cbn [negb].
  unfold bind, assign, get_globals, name_in. cbn [globals session_state trace].
  rewrite HG. cbn [orb globals session_state trace].
  now rewrite <- app_assoc.
Qed.

Lemma handler_configured tr f G ss t c :
  truthy (user_prompt f) = true ->
  G !! "client" = Some (PyClient c) ->
  let req :=
    chat_request
      (ai_prompt (user_prompt f) (intent_label (selected_intent f))
         (recipient_name f) (paper_info f) (other_info f)) in
  generate_button_handler tr f (Build_world G ss t)
  = (Return tt,
     Build_world G
       (<["draft" := draft_of (tr c req)]> (<["error_message" := ""]> ss))
       (t ++ [Assign "error_message" ""; Request req;
              Assign "draft" (draft_of (tr c req))])).
Proof.
  intros Hp HG req. unfold generate_button_handler. rewrite Hp. cbn [negb].
  unfold bind at 1. unfold assign at 1. cbn [globals session_state trace].
  unfold bind at 1. unfold get_globals at 1. cbn [globals].
  unfold name_in. rewrite HG. cbn [orb].
  erewrite bind_return by (apply generate_configured; exact HG).
  unfold assign. cbn [globals session_state trace]. fold req.
  now rewrite <- !app_assoc.
Qed.

Lemma draft_area_run G ss t d e :
  ss !! "draft" = Some d ->
  ss !! "error_message" = Some e ->
  exists t',
    draft_area (Build_world G ss t) = (Return tt, Build_world G ss (t ++ t'))
    /\ requests_of t' = []
    /\ page_of t' = area_page d e.
Proof.
  intros Hd He. unfold draft_area, area_page, bind, read, show, log, ret.
  cbn [globals session_state trace]. rewrite Hd.
  destruct (truthy d).
  - cbn [globals session_state trace]. eexists ([_] ++ [_]).
    rewrite app_assoc. repeat split; reflexivity.
  - cbn [globals session_state trace]. rewrite He.
    destruct (truthy e); cbn [negb].
    + exists []. rewrite app_nil_r. repeat split; reflexivity.
    + eexists [_]. repeat split; reflexivity.
Qed.

Lemma imports_no_client : imports !! "client" = None.
Proof.
  unfold imports. rewrite !lookup_insert_ne by discriminate.
  apply lookup_empty.
Qed.

(** Everything the script does before it looks at the button: the
    client is configured or not, the two session entries exist, and no
    request has been made. *)
Lemma rerun_prefix P tr f ss :
  exists G ss1 t0,
    rerun P tr f ss
    = bind (if generate_button f then generate_button_handler tr f else ret tt)
        (fun _ => draft_area) (Build_world G ss1 t0)
    /\ requests_of t0 = []
    /\ G !! "client" = PyClient <$> client_of P
    /\ ss1 !! "draft" = Some (default "" (ss !! "draft"))
    /\ ss1 !! "error_message" = Some (default "" (ss !! "error_message")).
Proof.
  unfold rerun, app, boot.
  destruct (configure_run P imports ss [] imports_no_client)
    as (G1 & t1 & E1 & Q1 & C1).
  erewrite bind_return by exact E1.
  unfold bind at 1. unfold bind_global at 1. cbn [globals session_state trace].
  destruct (init_session_state_run
              (<["generate_email_draft" := PyFunction "generate_email_draft"]> G1)
              ss ([] ++ t1))
    as (ss1 & t2 & E2 & Q2 & _ & D2 & M2).
  erewrite bind_return by exact E2.
  unfold bind at 1. unfold read at 1. cbn [globals session_state trace].
  rewrite M2.
  set (e0 := default "" (ss !! "error_message")) in *.
  exists (<["generate_email_draft" := PyFunction "generate_email_draft"]> G1), ss1.
  destruct (truthy e0).
  - exists ((([] ++ t1) ++ t2) ++ [Show (st_error e0)]).
    split; [reflexivity |]. split.
    + rewrite !requests_of_app, Q1, Q2. reflexivity.
    + split; [| split; assumption].
      rewrite lookup_insert_ne by discriminate. exact C1.
  - exists (([] ++ t1) ++ t2).
    split; [reflexivity |]. split.
    + rewrite !requests_of_app, Q1, Q2. reflexivity.
    + split; [| split; assumption].
      rewrite lookup_insert_ne by discriminate. exact C1.
Qed.

(** One run of the script, case by case: what it leaves in the session
    state and what it does between the preamble [t0] and the draft
    region [ta]. *)
Lemma rerun_cases P tr f ss :
  let d0 := default "" (ss !! "draft") in
  let e0 := default "" (ss !! "error_message") in
  let req :=
    chat_request
      (ai_prompt (user_prompt f) (intent_label (selected_intent f))
         (recipient_name f) (paper_info f) (other_info f)) in
  exists G ss' t0 th ta d e,
    rerun P tr f ss = (Return tt, Build_world G ss' (t0 ++ th ++ ta))
    /\ requests_of t0 = [] /\ requests_of ta = []
    /\ page_of ta = area_page d e
    /\ ss' !! "draft" = Some d /\ ss' !! "error_message" = Some e
    /\ ((generate_button f = false /\ th = [] /\ d = d0 /\ e = e0)
        \/ (generate_button f = true /\ truthy (user_prompt f) = false
            /\ th = [Assign "error_message" please_enter_prompt;
                     Assign "draft" ""]
            /\ d = "" /\ e = please_enter_prompt)
        \/ (generate_button f = true /\ truthy (user_prompt f) = true
            /\ client_of P = None
            /\ th = [Assign "error_message" "";
                     Assign "error_message" api_not_configured]
            /\ d = d0 /\ e = api_not_configured)
        \/ (exists c,
              generate_button f = true /\ truthy (user_prompt f) = true
              /\ client_of P = Some c
              /\ th = [Assign "error_message" ""; Request req;
                       Assign "draft" (draft_of (tr c req))]
              /\ d = draft_of (tr c req) /\ e = "")).
Proof.
  intros d0 e0 req.
  destruct (rerun_prefix P tr f ss) as (G & ss1 & t0 & E & Q0 & HG & D1 & M1).
  fold d0 in D1. fold e0 in M1. rewrite E. clear E.
  destruct (generate_button f) eqn:Hb.
  - destruct (truthy (user_prompt f)) eqn:Hp.
    + destruct (client_of P) as [c|] eqn:Hc; cbn in HG.
      * erewrite bind_return by (apply (handler_configured _ _ _ _ _ c Hp HG)).
        fold req.
        edestruct (draft_area_run G
                     (<["draft" := draft_of (tr c req)]>
                        (<["error_message" := ""]> ss1))) as (ta & Ea & Qa & Pa);
          [apply lookup_insert_eq
          | rewrite lookup_insert_ne by discriminate; apply lookup_insert_eq |].
        rewrite Ea. eexists G, _, t0, _, ta, _, _.
        rewrite <- app_assoc. split; [reflexivity |].
        repeat (split; [first [eassumption | apply lookup_insert_eq
          | rewrite lookup_insert_ne by discriminate; apply lookup_insert_eq] |]).
        right; right; right. exists c. repeat split.
      * erewrite bind_return by (apply (handler_unconfigured _ _ _ _ _ Hp HG)).
        edestruct (draft_area_run G
                     (<["error_message" := api_not_configured]>
                        (<["error_message" := ""]> ss1))) as (ta & Ea & Qa & Pa);
          [rewrite !lookup_insert_ne by discriminate; exact D1
          | apply lookup_insert_eq |].
        rewrite Ea. eexists G, _, t0, _, ta, _, _.
        rewrite <- app_assoc. split; [reflexivity |].
        repeat (split; [first [eassumption | apply lookup_insert_eq
          | rewrite !lookup_insert_ne by discriminate; exact D1] |]).
        right; right; left. repeat split.
    + erewrite bind_return by (apply (handler_empty_prompt _ _ _ _ _ Hp)).
      edestruct (draft_area_run G
                   (<["draft" := ""]>
                      (<["error_message" := please_enter_prompt]> ss1)))
        as (ta & Ea & Qa & Pa);
        [apply lookup_insert_eq
        | rewrite lookup_insert_ne by discriminate; apply lookup_insert_eq |].
      rewrite Ea. eexists G, _, t0, _, ta, _, _.
      rewrite <- app_assoc. split; [reflexivity |].
      repeat (split; [first [eassumption | apply lookup_insert_eq
        | rewrite lookup_insert_ne by discriminate; apply lookup_insert_eq] |]).
      right; left. repeat split.
  - unfold bind at 1. unfold ret at 1.
    destruct (draft_area_run G ss1 t0 _ _ D1 M1) as (ta & Ea & Qa & Pa).
    rewrite Ea. exists G, ss1, t0, [], ta, d0, e0.
    split; [reflexivity |]. repeat (split; [assumption |]).
    left. repeat split.
Qed.

End ScriptFacts.

(** * The claims *)

(** ** The prompt *)

Section PromptClaims.

Import Py.

(** C1, as the specification states it, fails: with both optional
    details empty the instruction still has its twelve lines, the two
    detail lines holding the indentation alone, so it is not the
    instruction with those lines left out. *)
Lemma empty_details_leave_blank_lines :
  let ls := lines (ai_prompt "Inquire about the neuroplasticity paper"
                     "Inquiry" "" "" "") in
  ls !! 6%nat = Some "        "
  /\ ls !! 7%nat = Some "        "
  /\ length ls = 12%nat
  /\ ls <> specified_lines "Inquire about the neuroplasticity paper"
             "Inquiry" "" "" "".
Proof. vm_compute. repeat split. discriminate. Qed.

Lemma recipient_field_not_empty (r : string) : recipient_field r <> "".
Proof.
  unfold recipient_field. destruct r; cbn [truthy]; discriminate.
Qed.

Lemma ai_prompt_recipient_line (p i r d o : string) :
  contains (nl +:+ indent +:+ "Recipient Name: " +:+ recipient_field r +:+ nl)
    (ai_prompt p i r d o) = true.
Proof.
  unfold ai_prompt. do 4 apply contains_skip.
  match goal with
  | |- contains _ (?a +:+ ?b +:+ ?c +:+ ?x +:+ ?e +:+ ?rest) = true =>
      replace (a +:+ b +:+ c +:+ x +:+ e +:+ rest)
        with ((a +:+ b +:+ c +:+ x +:+ e) +:+ rest)
        by (rewrite !app_assoc_string; reflexivity)
  end.
  apply contains_here.
Qed.

(** C2: the instruction contains the core message and the intent label
    verbatim; its recipient line reads [Recipient Name: ] followed by the
    recipient's name, or by [Colleague] when the name is empty, and what
    follows the label is never empty. For the message about the
    neuroplasticity paper with intent Inquiry and no optional field, the
    instruction contains that message, the label Inquiry and the line
    [Recipient Name: Colleague]. *)
Theorem prompt_names_message_intent_and_recipient (p i r d o : string) :
  contains p (ai_prompt p i r d o) = true
  /\ contains i (ai_prompt p i r d o) = true
  /\ contains
       (nl +:+ indent +:+ "Recipient Name: "
        +:+ (if truthy r then r else "Colleague") +:+ nl)
       (ai_prompt p i r d o) = true
  /\ (if truthy r then r else "Colleague") <> ""
  /\ (let example :=
        ai_prompt "Inquire about the neuroplasticity paper" "Inquiry" "" "" "" in
      contains "Inquire about the neuroplasticity paper" example = true
      /\ contains "Inquiry" example = true
      /\ contains (nl +:+ indent +:+ "Recipient Name: Colleague" +:+ nl)
           example = true).
Proof.
  split; [| split; [| split; [| split]]].
  - unfold ai_prompt.
    repeat first [apply contains_here | apply contains_skip].
  - unfold ai_prompt.
    repeat first [apply contains_here | apply contains_skip].
  - apply ai_prompt_recipient_line.
  - apply recipient_field_not_empty.
  - vm_compute. repeat split.
Qed.

End PromptClaims.

(** ** The generation client *)

Section ClientClaims.

Import Py.

Lemma client_of_no_key (P : process) :
  truthy_opt (environ P !! "OPENAI_API_KEY") = false -> client_of P = None.
Proof.
  unfold client_of. destruct (environ P !! "OPENAI_API_KEY") as [k|];
    cbn [truthy_opt]; [intros -> |]; reflexivity.
Qed.

Lemma client_of_key (P : process) k c :
  environ P !! "OPENAI_API_KEY" = Some k -> truthy k = true ->
  openai_OpenAI P k = Return c -> client_of P = Some c.
Proof. unfold client_of. now intros -> -> ->. Qed.

Lemma configure_no_key_page (P : process) w :
  truthy_opt (environ P !! "OPENAI_API_KEY") = false ->
  page_of (trace (snd (configure P w)))
  = page_of (trace w) ++ [st_error key_not_found].
Proof.
  intros Hk. unfold configure, try_except, bind, bind_global, show, log.
  destruct (environ P !! "OPENAI_API_KEY") as [k|]; cbn [truthy_opt] in Hk.
  - rewrite Hk. cbn [negb snd globals session_state trace].
    now rewrite page_of_app.
  - cbn [snd globals session_state trace]. now rewrite page_of_app.
Qed.

Lemma rerun_client_binding
    (P : process) (tr : transport) (f : form) (ss : gmap string string) :
  globals (snd (rerun P tr f ss)) !! "client" = PyClient <$> client_of P.
Proof.
  destruct (rerun_prefix P tr f ss) as (G & ss1 & t0 & E & _ & HG & D1 & M1).
  rewrite E. clear E.
  assert (Harea : forall s t,
            is_Some (s !! "draft") -> is_Some (s !! "error_message") ->
            globals (snd (draft_area (Build_world G s t))) = G).
  { intros s t [d Hd] [e He].
    destruct (draft_area_run G s t d e Hd He) as (ta & -> & _). reflexivity. }
  destruct (generate_button f).
  - destruct (truthy (user_prompt f)) eqn:Hp.
    + destruct (client_of P) as [c|] eqn:Hc; cbn in HG.
      * erewrite bind_return by (apply (handler_configured _ _ _ _ _ c Hp HG)).
        rewrite Harea; [exact HG | |];
          rewrite ?lookup_insert_eq, ?lookup_insert_ne by discriminate;
          rewrite ?lookup_insert_eq; eauto.
      * erewrite bind_return by (apply (handler_unconfigured _ _ _ _ _ Hp HG)).
        rewrite Harea; [exact HG | |];
          rewrite ?lookup_insert_eq, ?lookup_insert_ne by discriminate;
          rewrite ?lookup_insert_eq; eauto.
    + erewrite bind_return by (apply (handler_empty_prompt _ _ _ _ _ Hp)).
      rewrite Harea; [exact HG | |];
        rewrite ?lookup_insert_eq, ?lookup_insert_ne by discriminate;
        rewrite ?lookup_insert_eq; eauto.
  - unfold bind at 1. unfold ret at 1. rewrite Harea; eauto.
Qed.

(** C3: when the environment holds no key (or an empty one) the
    configuration block reports it and binds no client. The script binds
    the name [client] nowhere else, so the name stays as that block left
    it in every world of every run; and in every such world every call of
    [generate_email_draft], whatever its arguments and whatever the
    endpoint would answer, returns the configuration-error string and
    leaves the world as it was: no request is made. *)
Theorem missing_key_refuses_every_call
    (P : process) (ss : gmap string string) (w : world)
    (tr : transport) (p i r d o : string) :
  truthy_opt (environ P !! "OPENAI_API_KEY") = false ->
  globals w !! "client" = globals (snd (configure P (boot ss))) !! "client" ->
  generate_email_draft tr p i r d o w
  = (Return "Error: OpenAI API not configured. Please set your API key as an environment variable.",
     w)
  /\ requests_of (trace (snd (generate_email_draft tr p i r d o w)))
     = requests_of (trace w)
  /\ page_of (trace (snd (configure P (boot ss)))) = [st_error key_not_found]
  /\ (forall tr' f' ss',
        globals (snd (rerun P tr' f' ss')) !! "client"
        = globals (snd (configure P (boot ss))) !! "client").
Proof.
  intros Hk Hw.
  assert (HC : globals (snd (configure P (boot ss))) !! "client" = None).
  { unfold boot.
    destruct (configure_run P imports ss [] imports_no_client)
      as (G' & t' & E & _ & C).
    rewrite E. cbn [snd globals]. rewrite C, (client_of_no_key P Hk).
    reflexivity. }
  rewrite HC in Hw |- *.
  destruct w as [G s t]. cbn [globals] in Hw.
  rewrite (generate_unconfigured tr p i r d o G s t Hw).
  split; [reflexivity |]. split; [reflexivity |].
  split; [now rewrite configure_no_key_page |].
  intros tr' f' ss'.
  rewrite rerun_client_binding, (client_of_no_key P Hk). reflexivity.
Qed.

Lemma missing_key_refuses_every_call_witness :
  let w := snd (rerun Sample.without_key Sample.answering Sample.inquiry ∅) in
  generate_email_draft Sample.answering
    "Inquire about the neuroplasticity paper" "Inquiry" "" "" "" w
  = (Return not_configured, w).
Proof.
  exact (proj1 (missing_key_refuses_every_call Sample.without_key ∅
                  (snd (rerun Sample.without_key Sample.answering
                          Sample.inquiry ∅))
                  Sample.answering
                  "Inquire about the neuroplasticity paper" "Inquiry" "" "" ""
                  eq_refl eq_refl)).
Defined.

Lemma generate_email_draft_returns tr p i r d o w :
  exists s w', generate_email_draft tr p i r d o w = (Return s, w').
Proof.
  unfold generate_email_draft, bind, get_globals.
  destruct (negb _ && negb _).
  - eexists _, _. reflexivity.
  - unfold try_except.
    match goal with |- context [match ?b with _ => _ end] => destruct b as [[s|e] w'] end;
      eexists _, _; reflexivity.
Qed.

(** C4: a call of [generate_email_draft] never raises, whatever the
    arguments, the world and the endpoint; and when the endpoint's call
    raises a fault [e], or answers with no choice so that indexing the
    choices raises [IndexError], the function returns the string
    [Error generating email draft with OpenAI API: ] followed by the text
    of the fault. *)
Theorem faults_become_error_strings
    (tr : transport) (p i r d o : string) (w : world)
    (c : OpenAI.client) (e : exn) :
  globals w !! "client" = Some (PyClient c) ->
  (tr c (chat_request (ai_prompt p i r d o)) = Raise e
   \/ (exists response,
         tr c (chat_request (ai_prompt p i r d o)) = Return response
         /\ OpenAI.choices response = []
         /\ e = Exn IndexError "list index out of range")) ->
  fst (generate_email_draft tr p i r d o w)
  = Return ("Error generating email draft with OpenAI API: " +:+ exn_text e)
  /\ (forall tr' p' i' r' d' o' w',
        exists s, fst (generate_email_draft tr' p' i' r' d' o' w') = Return s).
Proof.
  intros HG Hf. split.
  - destruct w as [G s t]. cbn [globals] in HG.
    rewrite (generate_configured tr p i r d o G s t c HG). cbn [fst].
    destruct Hf as [-> | (resp & -> & Hc & ->)]; cbn [draft_of].
    + reflexivity.
    + rewrite Hc. reflexivity.
  - intros tr' p' i' r' d' o' w'.
    destruct (generate_email_draft_returns tr' p' i' r' d' o' w')
      as (s & w'' & ->).
    now exists s.
Qed.

Lemma faults_become_error_strings_witness :
  fst (generate_email_draft Sample.unreachable
         "Inquire about the neuroplasticity paper" "Inquiry" "" "" ""
         Sample.configured_world)
  = Return "Error generating email draft with OpenAI API: Connection error.".
Proof.
  exact (proj1 (faults_become_error_strings Sample.unreachable
                  "Inquire about the neuroplasticity paper" "Inquiry" "" "" ""
                  Sample.configured_world Sample.the_client
                  (Exn APIConnectionError "Connection error.")
                  eq_refl (or_introl eq_refl))).
Defined.

Lemma generate_email_draft_sends tr p i r d o w :
  exists sent,
    trace (snd (generate_email_draft tr p i r d o w)) = trace w ++ sent
    /\ (requests_of sent = []
        \/ requests_of sent = [chat_request (ai_prompt p i r d o)]).
Proof.
  destruct w as [G s t]. destruct (G !! "client") as [x|] eqn:HG.
  - destruct x as [ | | | |c];
      try (exists []; split; [| now left];
           unfold generate_email_draft, bind, get_globals; cbn [globals];
           rewrite client_not_local; unfold name_in; rewrite HG;
           cbn [negb andb]; unfold try_except, load_client, bind, get_globals;
           cbn [globals]; rewrite HG; cbn [snd trace];
           now rewrite app_nil_r).
    rewrite (generate_configured tr p i r d o G s t c HG).
    eexists. split; [reflexivity | now right].
  - rewrite (generate_unconfigured tr p i r d o G s t HG).
    exists []. cbn [snd trace]. rewrite app_nil_r. split; [reflexivity | now left].
Qed.

(** C7: with a client configured, a call of [generate_email_draft] sends
    exactly one request: model [gpt-3.5-turbo], two messages (the fixed
    system string, then the composed instruction as the user turn),
    [max_tokens] 500 and [temperature] 0.7; no call ever sends any other
    request; and when the endpoint answers with at least one choice the
    function returns the content of the first, unchanged. *)
Theorem one_request_of_fixed_shape
    (tr : transport) (p i r d o : string) (w : world) (c : OpenAI.client) :
  globals w !! "client" = Some (PyClient c) ->
  let req :=
    {| OpenAI.model := "gpt-3.5-turbo";
       OpenAI.messages :=
         [ {| OpenAI.role := "system";
              OpenAI.content :=
                "You are a helpful academic email drafting assistant." |};
           {| OpenAI.role := "user";
              OpenAI.content := ai_prompt p i r d o |} ];
       OpenAI.max_tokens := 500;
       OpenAI.temperature := 7 # 10 |} in
  requests_of (trace (snd (generate_email_draft tr p i r d o w)))
  = requests_of (trace w) ++ [req]
  /\ length (OpenAI.messages req) = 2%nat
  /\ (forall tr' w',
        exists sent,
          trace (snd (generate_email_draft tr' p i r d o w')) = trace w' ++ sent
          /\ (requests_of sent = [] \/ requests_of sent = [req]))
  /\ (forall ch rest,
        tr c req = Return {| OpenAI.choices := ch :: rest |} ->
        fst (generate_email_draft tr p i r d o w)
        = Return (OpenAI.content (OpenAI.choice_message ch))).
Proof.
  intros HG req. change req with (chat_request (ai_prompt p i r d o)).
  destruct w as [G s t]. cbn [globals] in HG.
  rewrite (generate_configured tr p i r d o G s t c HG). cbn [fst snd trace].
  split; [now rewrite requests_of_app |].
  split; [reflexivity |].
  split; [intros tr' w'; apply generate_email_draft_sends |].
  intros ch rest ->. reflexivity.
Qed.

Lemma one_request_of_fixed_shape_witness :
  fst (generate_email_draft Sample.answering
         "Inquire about the neuroplasticity paper" "Inquiry" "" "" ""
         Sample.configured_world)
  = Return "Dear Colleague,".
Proof.
  exact (proj2 (proj2 (proj2
           (one_request_of_fixed_shape Sample.answering
              "Inquire about the neuroplasticity paper" "Inquiry" "" "" ""
              Sample.configured_world Sample.the_client eq_refl)))
           (Sample.a_choice "Dear Colleague,") [] eq_refl).
Defined.

(** C8: the composed instruction is a function of the five fields alone:
    equal fields give the same string, and two successive calls with the
    same fields, whatever the endpoint answers to each, send the same
    instruction twice. *)
Theorem composed_instruction_is_deterministic
    (tr1 tr2 : transport) (w : world) (c : OpenAI.client)
    (p1 i1 r1 d1 o1 p2 i2 r2 d2 o2 : string) :
  p1 = p2 -> i1 = i2 -> r1 = r2 -> d1 = d2 -> o1 = o2 ->
  globals w !! "client" = Some (PyClient c) ->
  ai_prompt p1 i1 r1 d1 o1 = ai_prompt p2 i2 r2 d2 o2
  /\ (let w1 := snd (generate_email_draft tr1 p1 i1 r1 d1 o1 w) in
      let w2 := snd (generate_email_draft tr2 p2 i2 r2 d2 o2 w1) in
      requests_of (trace w2)
      = requests_of (trace w)
        ++ [chat_request (ai_prompt p1 i1 r1 d1 o1);
            chat_request (ai_prompt p1 i1 r1 d1 o1)]).
Proof.
  intros <- <- <- <- <- HG. split; [reflexivity |].
  destruct w as [G s t]. cbn [globals] in HG.
  rewrite (generate_configured tr1 p1 i1 r1 d1 o1 G s t c HG). cbn [snd].
  rewrite (generate_configured tr2 p1 i1 r1 d1 o1 G s _ c HG). cbn [snd trace].
  rewrite !requests_of_app, <- app_assoc. reflexivity.
Qed.

Lemma composed_instruction_is_deterministic_witness :
  let p := "Inquire about the neuroplasticity paper" in
  ai_prompt p "Inquiry" "" "" "" = ai_prompt p "Inquiry" "" "" ""
  /\ (let w1 := snd (generate_email_draft Sample.answering p "Inquiry" "" "" ""
                       Sample.configured_world) in
      let w2 := snd (generate_email_draft Sample.unreachable p "Inquiry" "" "" ""
                       w1) in
      requests_of (trace w2)
      = requests_of (trace Sample.configured_world)
        ++ [chat_request (ai_prompt p "Inquiry" "" "" "");
            chat_request (ai_prompt p "Inquiry" "" "" "")]).
Proof.
  exact (composed_instruction_is_deterministic
           Sample.answering Sample.unreachable
           Sample.configured_world Sample.the_client
           "Inquire about the neuroplasticity paper" "Inquiry" "" "" ""
           "Inquire about the neuroplasticity paper" "Inquiry" "" "" ""
           eq_refl eq_refl eq_refl eq_refl eq_refl eq_refl).
Defined.

End ClientClaims.

(** ** The script *)

Section ScriptClaims.

Import Py.

(** C5: a press of the button with an empty core prompt ends the run
    normally with the validation message stored in [error_message] and
    the stored draft set to the empty string, and no request has been
    made, whatever the process, the endpoint, the other fields and the
    session state before. *)
Theorem empty_prompt_is_rejected
    (P : process) (tr : transport) (f : form) (ss : gmap string string) :
  user_prompt f = "" ->
  generate_button f = true ->
  let out := rerun P tr f ss in
  fst out = Return tt
  /\ requests_of (trace (snd out)) = []
  /\ session_state (snd out) !! "draft" = Some ""
  /\ session_state (snd out) !! "error_message"
     = Some "⚠️ Please enter a core prompt for your email in the sidebar.".
Proof.
  intros Hp Hb out. subst out.
  destruct (rerun_cases P tr f ss)
    as (G & ss' & t0 & th & ta & d & e & E & Q0 & Qa & _ & Hd & He & Hc).
  rewrite E. cbn [fst snd session_state trace].
  rewrite Hp in Hc. cbn [truthy] in Hc.
  destruct Hc as [(Hb' & _) | [(_ & _ & -> & -> & ->)
                   | [(_ & Hf & _) | (c & _ & Hf & _)]]];
    try congruence.
  split; [reflexivity |]. split; [| split; assumption].
  rewrite !requests_of_app, Q0, Qa. reflexivity.
Qed.

Lemma empty_prompt_is_rejected_witness :
  let out := rerun Sample.with_key Sample.answering Sample.no_prompt
               (<["draft" := "Dear Colleague,"]> ∅) in
  fst out = Return tt
  /\ requests_of (trace (snd out)) = []
  /\ session_state (snd out) !! "draft" = Some ""
  /\ session_state (snd out) !! "error_message"
     = Some "⚠️ Please enter a core prompt for your email in the sidebar.".
Proof.
  exact (empty_prompt_is_rejected Sample.with_key Sample.answering
           Sample.no_prompt (<["draft" := "Dear Colleague,"]> ∅)
           eq_refl eq_refl).
Defined.

(** In every reachable session state the draft is empty when the process
    has no client, and the draft and the error message are never both
    non-empty. *)
Lemma reachable_consistent (P : process) (ss : gmap string string) :
  reachable P ss ->
  (client_of P = None -> default "" (ss !! "draft") = "")
  /\ (default "" (ss !! "draft") = ""
      \/ default "" (ss !! "error_message") = "").
Proof.
  induction 1 as [|ss tr f Hr [IHc IHb]].
  - rewrite !lookup_empty. cbn. split; [reflexivity | now left].
  - destruct (rerun_cases P tr f ss)
      as (G & ss' & t0 & th & ta & d & e & E & _ & _ & _ & Hd & He & Hc).
    rewrite E. cbn [snd session_state]. rewrite Hd, He. cbn [default].
    destruct Hc as [(_ & _ & -> & ->) | [(_ & _ & _ & -> & ->)
                     | [(_ & _ & Hn & _ & -> & ->)
                       | (c & _ & _ & Hs & _ & -> & ->)]]].
    + split; assumption.
    + split; [reflexivity | now left].
    + split; [assumption | left; now apply IHc].
    + split; [congruence | now right].
Qed.

(** C6: after a press of the button, in any state a session can reach,
    the stored draft and the stored error message are not both non-empty;
    within the run every request is made after [error_message] has been
    set to the empty string, with no other write to it in between; and
    when generation is attempted (non-empty prompt, client configured)
    the run writes the empty string to [error_message], then sends its
    request, then stores the draft, and ends with [error_message] empty
    whatever message was stored before. *)
Theorem draft_and_error_never_both
    (P : process) (ss : gmap string string) (tr : transport) (f : form) :
  reachable P ss ->
  generate_button f = true ->
  let w := snd (rerun P tr f ss) in
  let req :=
    chat_request
      (ai_prompt (user_prompt f) (intent_label (selected_intent f))
         (recipient_name f) (paper_info f) (other_info f)) in
  (exists d e,
      session_state w !! "draft" = Some d
      /\ session_state w !! "error_message" = Some e
      /\ (d = "" \/ e = ""))
  /\ cleared_before_requests false (trace w) = true
  /\ (forall k c,
        environ P !! "OPENAI_API_KEY" = Some k ->
        truthy k = true ->
        openai_OpenAI P k = Return c ->
        truthy (user_prompt f) = true ->
        exists before after d,
          trace w
          = before
            ++ [Assign "error_message" ""; Request req; Assign "draft" d]
            ++ after
          /\ requests_of before = [] /\ requests_of after = []
          /\ session_state w !! "draft" = Some d
          /\ session_state w !! "error_message" = Some "").
Proof.
  intros Hr Hb w req.
  pose proof (reachable_consistent P _ (reach_rerun P ss tr f Hr)) as [_ Hboth].
  fold w in Hboth.
  destruct (rerun_cases P tr f ss)
    as (G & ss' & t0 & th & ta & d & e & E & Q0 & Qa & _ & Hd & He & Hc).
  fold req in Hc.
  subst w. rewrite E in *. cbn [snd session_state trace] in *.
  split; [| split].
  - exists d, e. rewrite Hd, He in Hboth. cbn [default] in Hboth.
    repeat split; assumption.
  - destruct (cleared_quiet t0 (th ++ ta) Q0 false) as [b ->].
    destruct Hc as [(Hb' & _) | [(_ & _ & -> & _)
                     | [(_ & _ & _ & -> & _) | (c & _ & _ & _ & -> & _)]]].
    + congruence.
    + cbn. now apply cleared_no_request.
    + cbn. now apply cleared_no_request.
    + cbn. now apply cleared_no_request.
  - intros k c Hk Tk Hcl Hp.
    rewrite Hp, (client_of_key P k c Hk Tk Hcl) in Hc.
    destruct Hc as [(Hb' & _) | [(_ & Hx & _)
                     | [(_ & _ & Hx & _) | (c' & _ & _ & _ & -> & -> & ->)]]];
      try congruence.
    exists t0, ta, (draft_of (tr c' req)). repeat split; assumption.
Qed.

Lemma draft_and_error_never_both_witness :
  let ss :=
    session_state
      (snd (rerun Sample.with_key Sample.answering Sample.no_prompt ∅)) in
  let w := snd (rerun Sample.with_key Sample.answering Sample.inquiry ss) in
  ss !! "error_message"
  = Some "⚠️ Please enter a core prompt for your email in the sidebar."
  /\ session_state w !! "error_message" = Some ""
  /\ cleared_before_requests false (trace w) = true.
Proof.
  intros ss w.
  pose proof (draft_and_error_never_both Sample.with_key ss Sample.answering
                Sample.inquiry
                (reach_rerun Sample.with_key ∅ Sample.answering Sample.no_prompt
                   (reach_fresh Sample.with_key))
                eq_refl) as (_ & Hcleared & Hattempt).
  destruct (Hattempt "sk-test" Sample.the_client eq_refl eq_refl eq_refl eq_refl)
    as (before & after & d & _ & _ & _ & _ & He).
  split; [reflexivity |]. split; [exact He | exact Hcleared].
Defined.

Lemma ai_prompt_paper_line (p i r d o : string) :
  truthy d = true ->
  contains
    (nl +:+ indent +:+ "Relevant Paper/Manuscript Details: " +:+ d +:+ nl)
    (ai_prompt p i r d o) = true.
Proof.
  intros Hd. unfold ai_prompt, paper_field. rewrite Hd.
  do 16 apply contains_skip.
  match goal with
  | |- contains _ (?a +:+ ?b +:+ (?c +:+ ?x) +:+ ?e +:+ ?rest) = true =>
      replace (a +:+ b +:+ (c +:+ x) +:+ e +:+ rest)
        with ((a +:+ b +:+ c +:+ x +:+ e) +:+ rest)
        by (rewrite !app_assoc_string; reflexivity)
  end.
  apply contains_here.
Qed.

Lemma ai_prompt_other_line (p i r d o : string) :
  truthy o = true ->
  contains
    (nl +:+ indent +:+ "Other Specific Information: " +:+ o +:+ nl)
    (ai_prompt p i r d o) = true.
Proof.
  intros Ho. unfold ai_prompt, other_field. rewrite Ho.
  do 19 apply contains_skip.
  match goal with
  | |- contains _ (?a +:+ ?b +:+ (?c +:+ ?x) +:+ ?e +:+ ?rest) = true =>
      replace (a +:+ b +:+ (c +:+ x) +:+ e +:+ rest)
        with ((a +:+ b +:+ c +:+ x +:+ e) +:+ rest)
        by (rewrite !app_assoc_string; reflexivity)
  end.
  apply contains_here.
Qed.

Lemma whitespace_only_truthy (s : string) :
  whitespace_only s = true -> truthy s = true.
Proof. unfold whitespace_only. now intros [H _]%andb_prop. Qed.

(** C9: presence is truthiness, not emptiness after trimming. A string
    of blanks only, being non-empty, is embedded as the recipient's name
    in place of [Colleague], produces the labelled line of either
    optional detail, and as core prompt passes the validation: with a
    client configured the run sends one request carrying it and leaves
    [error_message] empty. *)
Theorem blank_fields_count_as_present
    (s : string) (P : process) (tr : transport) (f : form)
    (ss : gmap string string) (k : string) (c : OpenAI.client) :
  whitespace_only s = true ->
  environ P !! "OPENAI_API_KEY" = Some k ->
  truthy k = true ->
  openai_OpenAI P k = Return c ->
  user_prompt f = s ->
  generate_button f = true ->
  recipient_field s = s
  /\ (forall p i d o,
        contains (nl +:+ indent +:+ "Recipient Name: " +:+ s +:+ nl)
          (ai_prompt p i s d o) = true)
  /\ (forall p i r o,
        contains
          (nl +:+ indent +:+ "Relevant Paper/Manuscript Details: " +:+ s +:+ nl)
          (ai_prompt p i r s o) = true)
  /\ (forall p i r d,
        contains
          (nl +:+ indent +:+ "Other Specific Information: " +:+ s +:+ nl)
          (ai_prompt p i r d s) = true)
  /\ requests_of (trace (snd (rerun P tr f ss)))
     = [chat_request
          (ai_prompt s (intent_label (selected_intent f))
             (recipient_name f) (paper_info f) (other_info f))]
  /\ session_state (snd (rerun P tr f ss)) !! "error_message" = Some "".
Proof.
  intros Hs%whitespace_only_truthy Hk Tk Hc Hp Hb.
  assert (Hr : recipient_field s = s)
    by (unfold recipient_field; now rewrite Hs).
  split; [exact Hr |].
  split; [intros p i d o; pose proof (ai_prompt_recipient_line p i s d o) as L;
          now rewrite Hr in L |].
  split; [intros p i r o; now apply ai_prompt_paper_line |].
  split; [intros p i r d; now apply ai_prompt_other_line |].
  destruct (rerun_cases P tr f ss)
    as (G & ss' & t0 & th & ta & d & e & E & Q0 & Qa & _ & Hd & He & Hcase).
  rewrite E. cbn [snd session_state trace].
  rewrite Hp, Hs, (client_of_key P k c Hk Tk Hc) in Hcase.
  destruct Hcase as [(Hb' & _) | [(_ & Hf & _)
                      | [(_ & _ & Hf & _) | (c' & _ & _ & _ & -> & _ & ->)]]];
    try congruence.
  split; [| exact He].
  rewrite !requests_of_app, Q0, Qa. reflexivity.
Qed.

Lemma blank_fields_count_as_present_witness :
  recipient_field "  " = "  "
  /\ requests_of
       (trace (snd (rerun Sample.with_key Sample.answering
                      Sample.blank_prompt ∅)))
     = [chat_request (ai_prompt "  " "General" "" "" "")].
Proof.
  pose proof (blank_fields_count_as_present "  " Sample.with_key
                Sample.answering Sample.blank_prompt ∅ "sk-test"
                Sample.the_client eq_refl eq_refl eq_refl eq_refl eq_refl
                eq_refl) as (H1 & _ & _ & _ & H2 & _).
  exact (conj H1 H2).
Defined.

(** C10: when the button is pressed with a non-empty prompt, a client is
    configured and the endpoint's call raises, the string returned by
    [generate_email_draft] is stored as the draft and shown in the draft
    text area, while [error_message] is left empty. *)
Theorem generation_failure_goes_to_the_draft
    (P : process) (tr : transport) (f : form) (ss : gmap string string)
    (k : string) (c : OpenAI.client) (e : exn) :
  environ P !! "OPENAI_API_KEY" = Some k ->
  truthy k = true ->
  openai_OpenAI P k = Return c ->
  generate_button f = true ->
  truthy (user_prompt f) = true ->
  tr c (chat_request
          (ai_prompt (user_prompt f) (intent_label (selected_intent f))
             (recipient_name f) (paper_info f) (other_info f)))
  = Raise e ->
  let w := snd (rerun P tr f ss) in
  let failure :=
    "Error generating email draft with OpenAI API: " +:+ exn_text e in
  session_state w !! "draft" = Some failure
  /\ session_state w !! "error_message" = Some ""
  /\ In (st_text_area "Review and Edit Your Draft:" failure)
       (page_of (trace w))
  /\ forall G s t,
       G !! "client" = Some (PyClient c) ->
       fst (generate_email_draft tr
              (user_prompt f) (intent_label (selected_intent f))
              (recipient_name f) (paper_info f) (other_info f)
              (Build_world G s t))
       = Return failure.
Proof.
  intros Hk Tk Hc Hb Hp Hf w failure.
  destruct (rerun_cases P tr f ss)
    as (G & ss' & t0 & th & ta & d & e' & E & Q0 & Qa & Pa & Hd & He & Hcase).
  subst w. rewrite E. cbn [snd session_state trace].
  rewrite Hp, (client_of_key P k c Hk Tk Hc) in Hcase.
  destruct Hcase as [(Hb' & _) | [(_ & Hx & _)
                      | [(_ & _ & Hx & _) | (c' & _ & _ & Hc' & -> & -> & ->)]]];
    try congruence.
  injection Hc' as <-. rewrite Hf in *. cbn [draft_of] in *.
  change (generation_failed e) with failure in *.
  split; [exact Hd |]. split; [exact He |]. split.
  - rewrite !page_of_app, Pa. apply in_or_app. right. apply in_or_app. right.
    unfold area_page. change (truthy failure) with true. now left.
  - intros G' s t HG.
    rewrite (generate_configured tr _ _ _ _ _ G' s t c HG). cbn [fst].
    rewrite Hf. reflexivity.
Qed.

Lemma generation_failure_goes_to_the_draft_witness :
  let w := snd (rerun Sample.with_key Sample.unreachable Sample.inquiry ∅) in
  let failure :=
    "Error generating email draft with OpenAI API: Connection error." in
  session_state w !! "draft" = Some failure
  /\ session_state w !! "error_message" = Some ""
  /\ In (st_text_area "Review and Edit Your Draft:" failure)
       (page_of (trace w)).
Proof.
  pose proof (generation_failure_goes_to_the_draft Sample.with_key
                Sample.unreachable Sample.inquiry ∅ "sk-test"
                Sample.the_client (Exn APIConnectionError "Connection error.")
                eq_refl eq_refl eq_refl eq_refl eq_refl eq_refl)
    as (H1 & H2 & H3 & _).
  exact (conj H1 (conj H2 H3)).
Defined.

End ScriptClaims.

(** * Further properties of the script *)

Section RunDetails.

Import Py.

Lemma configure_page_cases (P : process) (G : gmap string pyobj)
    (ss : gmap string string) (t : list event) :
  G !! "client" = None ->
  exists G' t',
    configure P (Build_world G ss t) = (Return tt, Build_world G' ss (t ++ t'))
    /\ requests_of t' = []
    /\ G' !! "client" = PyClient <$> client_of P
    /\ (forall x, In x (page_of t') -> exists m, x = st_error m)
    /\ (client_of P <> None -> t' = [])
    /\ (truthy_opt (environ P !! "OPENAI_API_KEY") = false ->
        t' = [Show (st_error key_not_found)])
    /\ (forall k e,
          environ P !! "OPENAI_API_KEY" = Some k -> truthy k = true ->
          openai_OpenAI P k = Raise e ->
          t' = [Show (st_error ("⚠️ Error configuring OpenAI API: " +:+ exn_text e))]).
Proof.
  intros HG. unfold configure, client_of, try_except, bind, bind_global, show, log, lift.
  cbn [globals session_state trace].
  destruct (environ P !! "OPENAI_API_KEY") as [k|] eqn:Ek.
  - cbn [truthy_opt]. destruct (truthy k) eqn:Tk; cbn [negb].
    + destruct (openai_OpenAI P k) as [c|e] eqn:Ec.
      * eexists _, []. rewrite app_nil_r. split; [reflexivity |].
        split; [reflexivity |]. split; [now rewrite lookup_insert_eq |].
        split; [intros x [] |]. split; [reflexivity |].
        split; [discriminate |]. intros k' e' [= <-] _ He. congruence.
      * eexists _, [_]. split; [reflexivity |]. split; [reflexivity |].
        split; [cbn [globals]; rewrite lookup_insert_ne by discriminate; exact HG |].
        split; [intros x [<- | []]; eauto |]. split; [congruence |].
        split; [discriminate |]. intros k' e' [= <-] _ He.
        rewrite Ec in He. injection He as <-. reflexivity.
    + eexists _, [_]. split; [reflexivity |]. split; [reflexivity |].
      split; [cbn [globals]; rewrite lookup_insert_ne by discriminate; exact HG |].
      split; [intros x [<- | []]; eauto |]. split; [congruence |].
      split; [reflexivity |]. intros k' e' [= <-] Tk'. congruence.
  - eexists _, [_]. split; [reflexivity |]. split; [reflexivity |].
    split; [cbn [globals]; rewrite lookup_insert_ne by discriminate; exact HG |].
    split; [intros x [<- | []]; eauto |]. split; [congruence |].
    split; [reflexivity |]. discriminate.
Qed.

Lemma init_session_state_frame (G : gmap string pyobj)
    (ss : gmap string string) (t : list event) :
  exists ss' t',
    init_session_state (Build_world G ss t)
    = (Return tt, Build_world G ss' (t ++ t'))
    /\ requests_of t' = [] /\ page_of t' = []
    /\ ss' !! "draft" = Some (default "" (ss !! "draft"))
    /\ ss' !! "error_message" = Some (default "" (ss !! "error_message"))
    /\ (forall k, k <> "draft" -> k <> "error_message" -> ss' !! k = ss !! k).
Proof.
  unfold init_session_state, bind, in_session, assign, ret, name_in.
  cbn [globals session_state trace].
  destruct (ss !! "draft") as [d|] eqn:Ed; cbn [negb globals session_state trace].
  - destruct (ss !! "error_message") as [e|] eqn:Ee; cbn [negb].
    + eexists _, []. rewrite app_nil_r.
      repeat split; try reflexivity; by simplify_map_eq.
    + eexists _, [_].
      repeat split; try reflexivity; try (by simplify_map_eq).
      intros k _ Hk. rewrite lookup_insert_ne by congruence. reflexivity.
  - rewrite lookup_insert_ne by discriminate.
    destruct (ss !! "error_message") as [e|] eqn:Ee; cbn [negb].
    + eexists _, [_].
      repeat split; try reflexivity; try (by simplify_map_eq).
      intros k Hk _. rewrite lookup_insert_ne by congruence. reflexivity.
    + eexists _, ([_] ++ [_]). rewrite app_assoc.
      repeat split; try reflexivity; try (by simplify_map_eq).
      intros k Hd He. cbn [session_state]. rewrite !lookup_insert_ne by congruence. reflexivity.
Qed.

Lemma rerun_prefix_full P tr f ss :
  let e0 := default "" (ss !! "error_message") in
  exists G ss1 ti,
    rerun P tr f ss
    = bind (if generate_button f then generate_button_handler tr f else ret tt)
        (fun _ => draft_area)
        (Build_world G ss1
           (trace (snd (configure P (boot ss))) ++ ti ++ stored_error_box e0))
    /\ configuration_events P (trace (snd (configure P (boot ss))))
    /\ name_in "client" (globals (snd (configure P (boot ss))))
       = match client_of P with Some _ => true | None => false end
    /\ requests_of ti = [] /\ page_of ti = []
    /\ G !! "client" = PyClient <$> client_of P
    /\ ss1 !! "draft" = Some (default "" (ss !! "draft"))
    /\ ss1 !! "error_message" = Some e0
    /\ (forall k, k <> "draft" -> k <> "error_message" -> ss1 !! k = ss !! k).
Proof.
  intros e0. unfold rerun, app, boot.
  destruct (configure_page_cases P imports ss [] imports_no_client)
    as (G1 & t1 & E1 & Q1 & C1 & A1 & B1 & K1 & R1).
  erewrite bind_return by exact E1. rewrite E1. cbn [snd trace globals app].
  unfold bind at 1. unfold bind_global at 1. cbn [globals session_state trace app].
  destruct (init_session_state_frame
              (<["generate_email_draft" := PyFunction "generate_email_draft"]> G1)
              ss t1)
    as (ss1 & t2 & E2 & Q2 & P2 & D2 & M2 & F2).
  erewrite bind_return by exact E2.
  unfold bind at 1. unfold read at 1. cbn [globals session_state trace].
  rewrite M2. fold e0.
  exists (<["generate_email_draft" := PyFunction "generate_email_draft"]> G1), ss1, t2.
  split.
  { unfold stored_error_box. destruct (truthy e0).
    - unfold bind at 1. unfold show, log. cbn [globals session_state trace].
      now rewrite <- app_assoc.
    - unfold bind at 1. unfold ret at 1. now rewrite app_nil_r. }
  split; [repeat split; assumption |].
  split; [unfold name_in; rewrite C1; now destruct (client_of P) |].
  repeat (split; [assumption |]).
  split; [rewrite lookup_insert_ne by discriminate; exact C1 |].
  repeat split; assumption.
Qed.

(** One run of the script in full: the events of the configuration block,
    of the session defaults [ti], of the stored error's box, of the button
    handler [th] and of the draft region [ta], with what the run leaves in
    the session state. *)
Lemma rerun_full P tr f ss :
  let d0 := default "" (ss !! "draft") in
  let e0 := default "" (ss !! "error_message") in
  let req :=
    chat_request
      (ai_prompt (user_prompt f) (intent_label (selected_intent f))
         (recipient_name f) (paper_info f) (other_info f)) in
  exists G ss' ti th ta d e,
    rerun P tr f ss
    = (Return tt,
       Build_world G ss'
         (trace (snd (configure P (boot ss))) ++ ti ++ stored_error_box e0
          ++ th ++ ta))
    /\ configuration_events P (trace (snd (configure P (boot ss))))
    /\ name_in "client" (globals (snd (configure P (boot ss))))
       = match client_of P with Some _ => true | None => false end
    /\ requests_of ti = [] /\ page_of ti = []
    /\ requests_of ta = [] /\ page_of ta = area_page d e
    /\ ss' !! "draft" = Some d /\ ss' !! "error_message" = Some e
    /\ (forall k, k <> "draft" -> k <> "error_message" -> ss' !! k = ss !! k)
    /\ ((generate_button f = false /\ th = [] /\ d = d0 /\ e = e0)
        \/ (generate_button f = true /\ truthy (user_prompt f) = false
            /\ th = [Assign "error_message" please_enter_prompt;
                     Assign "draft" ""]
            /\ d = "" /\ e = please_enter_prompt)
        \/ (generate_button f = true /\ truthy (user_prompt f) = true
            /\ client_of P = None
            /\ th = [Assign "error_message" "";
                     Assign "error_message" api_not_configured]
            /\ d = d0 /\ e = api_not_configured)
        \/ (exists c,
              generate_button f = true /\ truthy (user_prompt f) = true
              /\ client_of P = Some c
              /\ th = [Assign "error_message" ""; Request req;
                       Assign "draft" (draft_of (tr c req))]
              /\ d = draft_of (tr c req) /\ e = "")).
Proof.
  intros d0 e0 req.
  destruct (rerun_prefix_full P tr f ss)
    as (G & ss1 & ti & E & HC & HN & Qi & Pi & HG & D1 & M1 & F1).
  fold d0 in D1. fold e0 in E, M1. rewrite E. clear E.
  set (t0 := trace (snd (configure P (boot ss))) ++ ti ++ stored_error_box e0).
  assert (Hassoc : forall th ta,
            (t0 ++ th) ++ ta
            = trace (snd (configure P (boot ss))) ++ ti ++ stored_error_box e0
              ++ th ++ ta)
    by (intros; unfold t0; now rewrite <- !app_assoc).
  destruct (generate_button f) eqn:Hb.
  - destruct (truthy (user_prompt f)) eqn:Hp.
    + destruct (client_of P) as [c|] eqn:Hc; cbn in HG.
      * erewrite bind_return by (apply (handler_configured _ _ _ _ _ c Hp HG)).
        fold req.
        edestruct (draft_area_run G
                     (<["draft" := draft_of (tr c req)]>
                        (<["error_message" := ""]> ss1))) as (ta & Ea & Qa & Pa);
          [apply lookup_insert_eq
          | rewrite lookup_insert_ne by discriminate; apply lookup_insert_eq |].
        rewrite Ea, Hassoc. eexists G, _, ti, _, ta, _, _.
        split; [reflexivity |].
        repeat (split; [first [eassumption | apply lookup_insert_eq
          | rewrite lookup_insert_ne by discriminate; apply lookup_insert_eq] |]).
        split; [intros k Hk1 Hk2; rewrite !lookup_insert_ne by congruence;
                now apply F1 |].
        right; right; right. exists c. repeat split.
      * erewrite bind_return by (apply (handler_unconfigured _ _ _ _ _ Hp HG)).
        edestruct (draft_area_run G
                     (<["error_message" := api_not_configured]>
                        (<["error_message" := ""]> ss1))) as (ta & Ea & Qa & Pa);
          [rewrite !lookup_insert_ne by discriminate; exact D1
          | apply lookup_insert_eq |].
        rewrite Ea, Hassoc. eexists G, _, ti, _, ta, _, _.
        split; [reflexivity |].
        repeat (split; [first [eassumption | apply lookup_insert_eq
          | rewrite !lookup_insert_ne by discriminate; exact D1] |]).
        split; [intros k Hk1 Hk2; rewrite !lookup_insert_ne by congruence;
                now apply F1 |].
        right; right; left. repeat split.
    + erewrite bind_return by (apply (handler_empty_prompt _ _ _ _ _ Hp)).
      edestruct (draft_area_run G
                   (<["draft" := ""]>
                      (<["error_message" := please_enter_prompt]> ss1)))
        as (ta & Ea & Qa & Pa);
        [apply lookup_insert_eq
        | rewrite lookup_insert_ne by discriminate; apply lookup_insert_eq |].
      rewrite Ea, Hassoc. eexists G, _, ti, _, ta, _, _.
      split; [reflexivity |].
      repeat (split; [first [eassumption | apply lookup_insert_eq
        | rewrite lookup_insert_ne by discriminate; apply lookup_insert_eq] |]).
      split; [intros k Hk1 Hk2; rewrite !lookup_insert_ne by congruence;
              now apply F1 |].
      right; left. repeat split.
  - unfold bind at 1. unfold ret at 1.
    destruct (draft_area_run G ss1 t0 _ _ D1 M1) as (ta & Ea & Qa & Pa).
    rewrite Ea. exists G, ss1, ti, [], ta, d0, e0.
    split; [unfold t0; now rewrite <- !app_assoc |].
    repeat (split; [assumption |]).
    left. repeat split.
Qed.

Lemma configured_iff (P : process) (ss : gmap string string) :
  name_in "client" (globals (snd (configure P (boot ss))))
  = match client_of P with Some _ => true | None => false end.
Proof.
  unfold boot.
  destruct (configure_page_cases P imports ss [] imports_no_client)
    as (G1 & t1 & E1 & _ & C1 & _).
  rewrite E1. cbn [snd globals]. unfold name_in. rewrite C1.
  now destruct (client_of P).
Qed.

Lemma page_of_stored_error_box (e : string) :
  page_of (stored_error_box e) = if truthy e then [st_error e] else [].
Proof. unfold stored_error_box. now destruct (truthy e). Qed.

Lemma requests_of_stored_error_box (e : string) :
  requests_of (stored_error_box e) = [].
Proof. unfold stored_error_box. now destruct (truthy e). Qed.

(** The page of a run: the configuration block's boxes, the box of the
    error message found stored, and the draft region for what the run
    leaves stored. *)
Lemma rerun_page P tr f ss :
  let w := snd (rerun P tr f ss) in
  let e0 := default "" (ss !! "error_message") in
  exists d e,
    session_state w !! "draft" = Some d
    /\ session_state w !! "error_message" = Some e
    /\ page_of (trace w)
       = page_of (trace (snd (configure P (boot ss))))
         ++ (if truthy e0 then [st_error e0] else [])
         ++ area_page d e.
Proof.
  intros w e0. subst w.
  destruct (rerun_full P tr f ss)
    as (G & ss' & ti & th & ta & d & e & E & _ & _ & _ & Pi & _ & Pa
        & Hd & He & _ & Hcase).
  rewrite E. cbn [snd session_state trace]. exists d, e.
  split; [exact Hd |]. split; [exact He |].
  rewrite !page_of_app, Pi, Pa, page_of_stored_error_box. fold e0.
  assert (Hth : page_of th = []).
  { destruct Hcase as [(_ & -> & _) | [(_ & _ & -> & _)
                        | [(_ & _ & _ & -> & _) | (c & _ & _ & _ & -> & _)]]];
      reflexivity. }
  rewrite Hth. reflexivity.
Qed.

Lemma stored_error_box_on_page
    (P : process) (tr : transport) (f : form) (ss : gmap string string)
    (e : string) :
  ss !! "error_message" = Some e ->
  truthy e = true ->
  In (st_error e) (page_of (trace (snd (rerun P tr f ss)))).
Proof.
  intros He Te.
  destruct (rerun_page P tr f ss) as (d & e' & _ & _ & Hpage).
  rewrite Hpage, He. simpl default. rewrite Te.
  apply in_or_app. right. now left.
Qed.

Lemma draft_region_on_page
    (P : process) (tr : transport) (f : form) (ss : gmap string string) :
  let w := snd (rerun P tr f ss) in
  (forall l v,
      In (st_text_area l v) (page_of (trace w))
      <-> l = "Review and Edit Your Draft:"
          /\ session_state w !! "draft" = Some v /\ v <> "")
  /\ (In st_info_fill_in (page_of (trace w))
      <-> session_state w !! "draft" = Some ""
          /\ session_state w !! "error_message" = Some "").
Proof.
  intros w.
  destruct (rerun_page P tr f ss) as (d & e & Hd & He & Hpage).
  fold w in Hd, He, Hpage. rewrite Hpage, Hd, He. clear Hpage.
  destruct (rerun_full P tr f ss)
    as (_ & _ & _ & _ & _ & _ & _ & _ & (_ & Hboxes & _) & _).
  set (pc := page_of (trace (snd (configure P (boot ss))))) in *.
  set (e0 := default "" (ss !! "error_message")).
  assert (Hpre : forall x,
            In x (pc ++ (if truthy e0 then [st_error e0] else [])) ->
            exists m, x = st_error m).
  { intros x [Hx | Hx]%in_app_or; [now apply Hboxes |].
    destruct (truthy e0); [destruct Hx as [<- | []]; eauto | destruct Hx]. }
  rewrite app_assoc. split.
  - intros l v. split.
    + intros [Hx | Hx]%in_app_or.
      * apply Hpre in Hx as [m Hx]. discriminate.
      * unfold area_page in Hx. destruct d as [|a d'].
        -- cbn [truthy] in Hx.
           destruct (truthy e); [destruct Hx | destruct Hx as [Hx | []]];
             discriminate.
        -- cbn [truthy] in Hx. destruct Hx as [[= <- <-] | [Hx | []]];
             [repeat split; discriminate | discriminate].
    + intros (-> & [= ->] & Hv). apply in_or_app. right.
      unfold area_page. destruct v; [congruence |]. now left.
  - split.
    + intros [Hx | Hx]%in_app_or.
      * apply Hpre in Hx as [m Hx]. discriminate.
      * unfold area_page in Hx. destruct d as [|a d'].
        -- destruct e; [now split |]. destruct Hx.
        -- cbn [truthy] in Hx. destruct Hx as [Hx | [Hx | []]]; discriminate.
    + intros ([= ->] & [= ->]). apply in_or_app. right. now left.
Qed.

Lemma client_of_raise (P : process) k e :
  environ P !! "OPENAI_API_KEY" = Some k -> truthy k = true ->
  openai_OpenAI P k = Raise e -> client_of P = None.
Proof. unfold client_of. now intros -> -> ->. Qed.

Lemma every_run_has_entries
    (P : process) (tr : transport) (f : form) (ss : gmap string string) :
  is_Some (session_state (snd (rerun P tr f ss)) !! "draft")
  /\ is_Some (session_state (snd (rerun P tr f ss)) !! "error_message").
Proof.
  destruct (rerun_cases P tr f ss)
    as (G & ss' & t0 & th & ta & d & e & E & _ & _ & _ & Hd & He & _).
  rewrite E. cbn [fst snd session_state]. rewrite Hd, He. eauto.
Qed.

Lemma requests_of_rerun
    (P : process) (tr : transport) (f : form) (ss : gmap string string) :
  requests_of (trace (snd (rerun P tr f ss)))
  = if generate_button f && truthy (user_prompt f)
       && name_in "client" (globals (snd (configure P (boot ss))))
    then [chat_request
            (ai_prompt (user_prompt f) (intent_label (selected_intent f))
               (recipient_name f) (paper_info f) (other_info f))]
    else [].
Proof.
  rewrite configured_iff.
  destruct (rerun_cases P tr f ss)
    as (G & ss' & t0 & th & ta & d & e & E & Q0 & Qa & _ & _ & _ & Hcase).
  rewrite E. cbn [snd trace]. rewrite !requests_of_app, Q0, Qa.
  destruct Hcase as [(-> & -> & _) | [(-> & -> & -> & _)
                      | [(-> & -> & -> & -> & _) | (c & -> & -> & -> & -> & _)]]];
    reflexivity.
Qed.

End RunDetails.

(** ** What a run does *)

Section RunProperties.

Import Py.

(** X1: no run fails on a missing session entry or on a fault of the
    client library. The two defaults are stored before the first read, so
    every read of [st.session_state.draft] and
    [st.session_state.error_message] finds its entry, whatever session
    state the run starts from; a fault raised while building the client or
    while calling the endpoint is caught by the [try] block around it; and
    the run leaves both entries present. Streamlit's own calls are taken
    to return. *)
Theorem reads_find_their_entries_and_faults_are_caught
    (P : process) (tr : transport) (f : form) (ss : gmap string string) :
  fst (rerun P tr f ss) = Return tt
  /\ is_Some (session_state (snd (rerun P tr f ss)) !! "draft")
  /\ is_Some (session_state (snd (rerun P tr f ss)) !! "error_message").
Proof.
  destruct (rerun_cases P tr f ss)
    as (G & ss' & t0 & th & ta & d & e & E & _ & _ & _ & Hd & He & _).
  rewrite E. cbn [fst snd session_state]. rewrite Hd, He. eauto.
Qed.

(** X2: a run sends one request, carrying the instruction composed from
    the form, exactly when the button was pressed, the core prompt is
    non-empty and the configuration block bound a client; otherwise it
    sends none. *)
Theorem at_most_one_request_per_run
    (P : process) (tr : transport) (f : form) (ss : gmap string string) :
  requests_of (trace (snd (rerun P tr f ss)))
  = if generate_button f && truthy (user_prompt f)
       && name_in "client" (globals (snd (configure P (boot ss))))
    then [chat_request
            (ai_prompt (user_prompt f) (intent_label (selected_intent f))
               (recipient_name f) (paper_info f) (other_info f))]
    else [].
Proof. exact (requests_of_rerun P tr f ss). Qed.

(** X3: a run in which the button is not pressed sends nothing, and on a
    session state that already has its two entries it leaves the whole
    session state as it found it. *)
Theorem idle_run_changes_nothing
    (P : process) (tr : transport) (f : form) (ss : gmap string string) :
  generate_button f = false ->
  is_Some (ss !! "draft") ->
  is_Some (ss !! "error_message") ->
  requests_of (trace (snd (rerun P tr f ss))) = []
  /\ session_state (snd (rerun P tr f ss)) = ss.
Proof.
  intros Hb [d0 Hd0] [e0 He0].
  destruct (rerun_full P tr f ss)
    as (G & ss' & ti & th & ta & d & e & E & (Qc & _) & _ & Qi & _ & Qa & _
        & Hd & He & Hframe & Hcase).
  rewrite E. cbn [snd session_state trace].
  destruct Hcase as [(_ & -> & -> & ->) | [(Hx & _)
                      | [(Hx & _) | (c & Hx & _)]]]; try congruence.
  split.
  - rewrite !requests_of_app, Qc, Qi, Qa, requests_of_stored_error_box.
    reflexivity.
  - apply map_eq. intros k.
    destruct (decide (k = "draft")) as [-> |Hk1];
      [rewrite Hd, Hd0; reflexivity |].
    destruct (decide (k = "error_message")) as [-> |Hk2];
      [rewrite He, He0; reflexivity |].
    now apply Hframe.
Qed.

Lemma idle_run_changes_nothing_witness :
  let ss : gmap string string :=
    <["draft" := "Dear Colleague,"]> (<["error_message" := ""]> ∅) in
  requests_of
    (trace (snd (rerun Sample.with_key Sample.answering MoreSamples.idle ss)))
  = []
  /\ session_state
       (snd (rerun Sample.with_key Sample.answering MoreSamples.idle ss))
     = ss.
Proof.
  intros ss.
  apply (idle_run_changes_nothing Sample.with_key Sample.answering
           MoreSamples.idle ss eq_refl).
  - exists "Dear Colleague,". reflexivity.
  - exists "". reflexivity.
Defined.

(** X4: every run leaves the entries of the session state other than
    [draft] and [error_message] as they were. *)
Theorem other_session_entries_untouched
    (P : process) (tr : transport) (f : form) (ss : gmap string string)
    (k : string) :
  k <> "draft" ->
  k <> "error_message" ->
  session_state (snd (rerun P tr f ss)) !! k = ss !! k.
Proof.
  intros Hk1 Hk2.
  destruct (rerun_full P tr f ss)
    as (G & ss' & ti & th & ta & d & e & E & _ & _ & _ & _ & _ & _
        & _ & _ & Hframe & _).
  rewrite E. cbn [snd session_state]. now apply Hframe.
Qed.

Lemma other_session_entries_untouched_witness :
  session_state
    (snd (rerun Sample.with_key Sample.answering Sample.inquiry
            (<["theme" := "dark"]> ∅))) !! "theme"
  = (<["theme" := "dark"]> ∅ : gmap string string) !! "theme".
Proof.
  apply (other_session_entries_untouched Sample.with_key Sample.answering
           Sample.inquiry (<["theme" := "dark"]> ∅) "theme");
    discriminate.
Defined.

End RunProperties.

(** ** What a run shows *)

Section PageProperties.

Import Py.

(** X5: the error box shows the message the run finds stored when it
    starts, not the one it stores: a non-empty [error_message] left by
    the previous run is on the page of the next run whatever that run
    does, also when it clears the message and produces a draft. *)
Theorem stored_error_is_shown_by_the_next_run
    (P : process) (tr : transport) (f : form) (ss : gmap string string)
    (e : string) :
  ss !! "error_message" = Some e ->
  truthy e = true ->
  In (st_error e) (page_of (trace (snd (rerun P tr f ss)))).
Proof.
  intros He Te. now apply stored_error_box_on_page.
Qed.

Lemma stored_error_is_shown_by_the_next_run_witness :
  In (st_error "⚠️ Please enter a core prompt for your email in the sidebar.")
    (page_of
       (trace
          (snd (rerun Sample.with_key Sample.answering Sample.inquiry
                  (<["error_message" :=
                       "⚠️ Please enter a core prompt for your email in the sidebar."]>
                     ∅))))).
Proof.
  exact (stored_error_is_shown_by_the_next_run Sample.with_key
           Sample.answering Sample.inquiry
           (<["error_message" :=
                "⚠️ Please enter a core prompt for your email in the sidebar."]> ∅)
           "⚠️ Please enter a core prompt for your email in the sidebar."
           eq_refl eq_refl).
Defined.

(** X6: the run that rejects an empty core prompt does not show the
    validation message it stores: starting with no stored error, its page
    holds nothing but what the configuration block put there (no error
    box for the validation, no draft, no hint); the message appears on the
    page of the run after it. *)
Theorem validation_error_appears_one_run_late
    (P : process) (tr tr' : transport) (f f' : form)
    (ss : gmap string string) :
  user_prompt f = "" ->
  generate_button f = true ->
  default "" (ss !! "error_message") = "" ->
  let w := snd (rerun P tr f ss) in
  page_of (trace w) = page_of (trace (snd (configure P (boot ss))))
  /\ In (st_error please_enter_prompt)
       (page_of (trace (snd (rerun P tr' f' (session_state w))))).
Proof.
  intros Hp Hb He0 w.
  assert (Hw : session_state w !! "error_message" = Some please_enter_prompt
               /\ session_state w !! "draft" = Some "").
  { pose proof (rerun_cases P tr f ss)
      as (G & ss' & t0 & th & ta & d & e & E & _ & _ & _ & Hd & He & Hcase).
    subst w. rewrite E. cbn [snd session_state].
    rewrite Hp in Hcase. cbn [truthy] in Hcase.
    destruct Hcase as [(Hx & _) | [(_ & _ & _ & -> & ->)
                        | [(_ & Hx & _) | (c & _ & Hx & _)]]];
      try congruence.
    now split. }
  destruct Hw as [Hwe Hwd]. split.
  - destruct (rerun_page P tr f ss) as (d & e & Hd & He & Hpage).
    fold w in Hd, He, Hpage. rewrite Hpage, He0.
    rewrite Hwd in Hd. rewrite Hwe in He.
    injection Hd as <-. injection He as <-.
    cbn. now rewrite app_nil_r.
  - apply (stored_error_box_on_page P tr' f' (session_state w) please_enter_prompt
             Hwe eq_refl).
Qed.

Lemma validation_error_appears_one_run_late_witness :
  let w := snd (rerun Sample.with_key Sample.answering Sample.no_prompt ∅) in
  page_of (trace w) = []
  /\ In (st_error please_enter_prompt)
       (page_of
          (trace (snd (rerun Sample.with_key Sample.answering Sample.inquiry
                         (session_state w))))).
Proof.
  exact (validation_error_appears_one_run_late Sample.with_key
           Sample.answering Sample.answering Sample.no_prompt Sample.inquiry ∅
           eq_refl eq_refl eq_refl).
Defined.

(** X7: the draft region shows what the run leaves stored and nothing
    else: a text area is on the page exactly when the stored draft is
    non-empty, and then it is the review area holding that draft; the
    fill-in hint is on the page exactly when the stored draft and the
    stored error message are both empty. *)
Theorem draft_region_reflects_the_session_state
    (P : process) (tr : transport) (f : form) (ss : gmap string string) :
  let w := snd (rerun P tr f ss) in
  (forall l v,
      In (st_text_area l v) (page_of (trace w))
      <-> l = "Review and Edit Your Draft:"
          /\ session_state w !! "draft" = Some v /\ v <> "")
  /\ (In st_info_fill_in (page_of (trace w))
      <-> session_state w !! "draft" = Some ""
          /\ session_state w !! "error_message" = Some "").
Proof. exact (draft_region_on_page P tr f ss). Qed.

End PageProperties.

(** ** Outcomes of a press of the button *)

Section PressProperties.

Import Py.

(** X8: when the button is pressed with a non-empty prompt, a client is
    configured and the endpoint answers with at least one choice, the run
    sends that one request, stores the first choice's content as the draft
    and leaves [error_message] empty. A non-empty content is shown in the
    review area; an empty content gives no text area at all and the
    fill-in hint instead, as if nothing had been generated. *)
Theorem completion_is_stored_and_shown
    (P : process) (tr : transport) (f : form) (ss : gmap string string)
    (k : string) (c : OpenAI.client) (ch : OpenAI.choice)
    (rest : list OpenAI.choice) :
  environ P !! "OPENAI_API_KEY" = Some k ->
  truthy k = true ->
  openai_OpenAI P k = Return c ->
  generate_button f = true ->
  truthy (user_prompt f) = true ->
  let req :=
    chat_request
      (ai_prompt (user_prompt f) (intent_label (selected_intent f))
         (recipient_name f) (paper_info f) (other_info f)) in
  tr c req = Return {| OpenAI.choices := ch :: rest |} ->
  let text := OpenAI.content (OpenAI.choice_message ch) in
  let w := snd (rerun P tr f ss) in
  requests_of (trace w) = [req]
  /\ session_state w !! "draft" = Some text
  /\ session_state w !! "error_message" = Some ""
  /\ (if truthy text
      then In (st_text_area "Review and Edit Your Draft:" text)
             (page_of (trace w))
      else In st_info_fill_in (page_of (trace w))
           /\ forall l v, ~ In (st_text_area l v) (page_of (trace w))).
Proof.
  intros Hk Tk Hc Hb Hp req Htr text w.
  assert (Hw : requests_of (trace w) = [req]
               /\ session_state w !! "draft" = Some text
               /\ session_state w !! "error_message" = Some "").
  { destruct (rerun_cases P tr f ss)
      as (G & ss' & t0 & th & ta & d & e & E & Q0 & Qa & _ & Hd & He & Hcase).
    subst w. rewrite E. cbn [snd session_state trace].
    rewrite Hp, (client_of_key P k c Hk Tk Hc) in Hcase.
    destruct Hcase as [(Hx & _) | [(_ & Hx & _)
                        | [(_ & _ & Hx & _) | (c' & _ & _ & Hc' & -> & -> & ->)]]];
      try congruence.
    injection Hc' as <-. fold req in Hd |- *. rewrite Htr in *.
    cbn [draft_of OpenAI.choices] in *.
    rewrite !requests_of_app, Q0, Qa. now repeat split. }
  destruct Hw as (Hq & Hd & He). repeat (split; [assumption |]).
  destruct (draft_region_on_page P tr f ss) as [Harea Hhint].
  fold w in Harea, Hhint.
  destruct (truthy text) eqn:Tt.
  - apply Harea. split; [reflexivity |]. split; [exact Hd |].
    now apply truthy_true.
  - apply truthy_false in Tt. split.
    + apply Hhint. split; [rewrite Hd; now f_equal | exact He].
    + intros l v (_ & Hv & Hne)%Harea. rewrite Hd, Tt in Hv. congruence.
Qed.

Lemma completion_is_stored_and_shown_witness :
  let w := snd (rerun Sample.with_key MoreSamples.silent Sample.inquiry ∅) in
  session_state w !! "draft" = Some ""
  /\ In st_info_fill_in (page_of (trace w)).
Proof.
  pose proof (completion_is_stored_and_shown Sample.with_key MoreSamples.silent
                Sample.inquiry ∅ "sk-test" Sample.the_client
                (Sample.a_choice "") [] eq_refl eq_refl eq_refl eq_refl eq_refl
                eq_refl) as (_ & H1 & _ & H2 & _).
  exact (conj H1 H2).
Defined.

(** X9: when the configuration block bound no client, a press of the
    button with a non-empty prompt sends nothing, stores the
    not-configured message in [error_message], and leaves the stored draft
    as it was: unlike the validation branch it does not clear it. *)
Theorem unconfigured_press_keeps_the_draft
    (P : process) (tr : transport) (f : form) (ss : gmap string string) :
  name_in "client" (globals (snd (configure P (boot ss)))) = false ->
  generate_button f = true ->
  truthy (user_prompt f) = true ->
  let w := snd (rerun P tr f ss) in
  requests_of (trace w) = []
  /\ session_state w !! "error_message"
     = Some "⚠️ OpenAI API not configured. Please set your API key as an environment variable."
  /\ session_state w !! "draft" = Some (default "" (ss !! "draft")).
Proof.
  intros Hn Hb Hp w. rewrite configured_iff in Hn.
  destruct (rerun_cases P tr f ss)
    as (G & ss' & t0 & th & ta & d & e & E & Q0 & Qa & _ & Hd & He & Hcase).
  subst w. rewrite E. cbn [snd session_state trace].
  rewrite Hp in Hcase.
  destruct Hcase as [(Hx & _) | [(_ & Hx & _)
                      | [(_ & _ & _ & -> & -> & ->) | (c' & _ & _ & Hc' & _)]]];
    try congruence.
  - rewrite !requests_of_app, Q0, Qa. now repeat split.
  - rewrite Hc' in Hn. discriminate.
Qed.

Lemma unconfigured_press_keeps_the_draft_witness :
  let w := snd (rerun Sample.without_key Sample.answering Sample.inquiry
                  (<["draft" := "Dear Colleague,"]> ∅)) in
  requests_of (trace w) = []
  /\ session_state w !! "error_message"
     = Some "⚠️ OpenAI API not configured. Please set your API key as an environment variable."
  /\ session_state w !! "draft" = Some "Dear Colleague,".
Proof.
  exact (unconfigured_press_keeps_the_draft Sample.without_key Sample.answering
           Sample.inquiry (<["draft" := "Dear Colleague,"]> ∅)
           eq_refl eq_refl eq_refl).
Defined.

(** X10: in a process whose configuration block binds no client, over a
    whole browser session no run ever sends a request, stores a non-empty
    draft or shows a text area. *)
Theorem without_a_client_no_draft_ever
    (P : process) (ss : gmap string string) (tr : transport) (f : form) :
  name_in "client" (globals (snd (configure P (boot ∅)))) = false ->
  reachable P ss ->
  let w := snd (rerun P tr f ss) in
  requests_of (trace w) = []
  /\ session_state w !! "draft" = Some ""
  /\ forall l v, ~ In (st_text_area l v) (page_of (trace w)).
Proof.
  intros Hn Hr w. rewrite configured_iff in Hn.
  assert (Hc : client_of P = None) by (now destruct (client_of P)).
  pose proof (reachable_consistent P _ (reach_rerun P ss tr f Hr)) as [Hd _].
  fold w in Hd. specialize (Hd Hc).
  destruct (every_run_has_entries P tr f ss) as [[d Hd'] _]. fold w in Hd'.
  rewrite Hd' in Hd. cbn in Hd. subst d.
  split; [| split; [exact Hd' |]].
  - subst w. rewrite (requests_of_rerun P tr f ss), configured_iff, Hc.
    now rewrite andb_false_r.
  - intros l v (_ & Hv & Hne)%(proj1 (draft_region_on_page P tr f ss)).
    fold w in Hv. congruence.
Qed.

Lemma without_a_client_no_draft_ever_witness :
  let w := snd (rerun Sample.without_key Sample.answering Sample.inquiry ∅) in
  requests_of (trace w) = []
  /\ session_state w !! "draft" = Some ""
  /\ forall l v, ~ In (st_text_area l v) (page_of (trace w)).
Proof.
  exact (without_a_client_no_draft_ever Sample.without_key ∅ Sample.answering
           Sample.inquiry eq_refl (reach_fresh Sample.without_key)).
Defined.

(** X11: whatever happens in a browser session, the stored error message
    is empty or one of the script's two fixed messages (the validation
    message, the not-configured message); the text of a failed generation
    never gets there. *)
Theorem error_channel_holds_only_fixed_messages
    (P : process) (ss : gmap string string) (e : string) :
  reachable P ss ->
  ss !! "error_message" = Some e ->
  e = ""
  \/ e = "⚠️ Please enter a core prompt for your email in the sidebar."
  \/ e = "⚠️ OpenAI API not configured. Please set your API key as an environment variable.".
Proof.
  intros Hr. revert e. induction Hr as [|ss tr f Hr IH]; intros e He.
  - rewrite lookup_empty in He. discriminate.
  - destruct (rerun_cases P tr f ss)
      as (G & ss' & t0 & th & ta & d & e' & E & _ & _ & _ & _ & He' & Hcase).
    rewrite E in He. cbn [snd session_state] in He.
    rewrite He' in He. injection He as <-.
    destruct Hcase as [(_ & _ & _ & ->) | [(_ & _ & _ & _ & ->)
                        | [(_ & _ & _ & _ & _ & ->) | (c & _ & _ & _ & _ & _ & ->)]]].
    + destruct (ss !! "error_message") as [e0|] eqn:E0; cbn [default].
      * now apply IH.
      * now left.
    + right; now left.
    + right; now right.
    + now left.
Qed.

Lemma error_channel_holds_only_fixed_messages_witness :
  let e := "⚠️ Please enter a core prompt for your email in the sidebar." in
  e = ""
  \/ e = "⚠️ Please enter a core prompt for your email in the sidebar."
  \/ e = "⚠️ OpenAI API not configured. Please set your API key as an environment variable.".
Proof.
  exact (error_channel_holds_only_fixed_messages Sample.with_key
           (session_state
              (snd (rerun Sample.with_key Sample.answering Sample.no_prompt ∅)))
           "⚠️ Please enter a core prompt for your email in the sidebar."
           (reach_rerun Sample.with_key ∅ Sample.answering Sample.no_prompt
              (reach_fresh Sample.with_key))
           eq_refl).
Defined.

(** X12: when the key is set but building the client raises, every run
    shows the configuration error carrying the fault's text and sends
    nothing, and a press of the button with a non-empty prompt stores the
    not-configured message. *)
Theorem construction_failure_is_reported
    (P : process) (tr : transport) (f : form) (ss : gmap string string)
    (k : string) (e : exn) :
  environ P !! "OPENAI_API_KEY" = Some k ->
  truthy k = true ->
  openai_OpenAI P k = Raise e ->
  let w := snd (rerun P tr f ss) in
  In (st_error ("⚠️ Error configuring OpenAI API: " +:+ exn_text e))
    (page_of (trace w))
  /\ requests_of (trace w) = []
  /\ (if generate_button f && truthy (user_prompt f)
      then session_state w !! "error_message" = Some api_not_configured
      else True).
Proof.
  intros Hk Tk He w.
  pose proof (client_of_raise P k e Hk Tk He) as Hc.
  destruct (rerun_full P tr f ss)
    as (G & ss' & ti & th & ta & d & e' & E & (_ & _ & _ & _ & Hbox)
        & _ & _ & _ & _ & _ & _ & He' & _ & Hcase).
  specialize (Hbox k e Hk Tk He).
  split; [| split].
  - subst w. rewrite E. cbn [snd trace]. rewrite Hbox. cbn. now left.
  - subst w. rewrite (requests_of_rerun P tr f ss), configured_iff, Hc.
    now rewrite andb_false_r.
  - subst w. rewrite E. cbn [snd session_state]. rewrite He'.
    destruct Hcase as [(-> & _) | [(-> & -> & _)
                        | [(-> & -> & _ & _ & _ & ->) | (c & _ & _ & Hx & _)]]];
      try exact I; try reflexivity.
    congruence.
Qed.

Lemma construction_failure_is_reported_witness :
  let w := snd (rerun MoreSamples.failing_constructor Sample.answering
                  Sample.inquiry ∅) in
  In (st_error "⚠️ Error configuring OpenAI API: The api_key client option must be set")
    (page_of (trace w))
  /\ requests_of (trace w) = []
  /\ session_state w !! "error_message" = Some api_not_configured.
Proof.
  exact (construction_failure_is_reported MoreSamples.failing_constructor
           Sample.answering Sample.inquiry ∅ "sk-test"
           (Exn OpenAIError "The api_key client option must be set")
           eq_refl eq_refl eq_refl).
Defined.

End PressProperties.

(** ** The instruction and the client, further *)

Section PromptProperties.

Import Py.

Lemma length_lines (s : string) : length (lines s) = S (breaks s).
Proof.
  induction s as [|c s IH]; [reflexivity |].
  cbn [lines breaks]. destruct (Ascii.eqb c "010").
  - cbn [length]. now rewrite IH.
  - destruct (lines s) as [|l ls] eqn:E; [now apply lines_not_nil in E |].
    cbn [length] in *. exact IH.
Qed.

Lemma breaks_app (a b : string) : breaks (a +:+ b) = breaks a + breaks b.
Proof.
  induction a as [|c a IH]; [reflexivity |].
  rewrite app_cons. cbn [breaks]. rewrite IH. apply Nat.add_assoc.
Qed.

Lemma breaks_recipient_field (r : string) :
  breaks (recipient_field r) = breaks r.
Proof. unfold recipient_field. now destruct r. Qed.

Lemma breaks_paper_field (d : string) : breaks (paper_field d) = breaks d.
Proof.
  unfold paper_field. destruct (truthy d) eqn:T.
  - now rewrite breaks_app.
  - now rewrite (truthy_false d T).
Qed.

Lemma breaks_other_field (o : string) : breaks (other_field o) = breaks o.
Proof.
  unfold other_field. destruct (truthy o) eqn:T.
  - now rewrite breaks_app.
  - now rewrite (truthy_false o T).
Qed.

(** X13: the template neither adds nor drops a line break: for any
    fields, the instruction has twelve lines plus one for every line
    break in the five fields. *)
Theorem instruction_line_count (p i r d o : string) :
  length (lines (ai_prompt p i r d o))
  = 12 + breaks p + breaks i + breaks r + breaks d + breaks o.
Proof.
  rewrite length_lines. unfold ai_prompt.
  rewrite !breaks_app, breaks_recipient_field, breaks_paper_field,
    breaks_other_field.
  change (breaks nl) with 1. change (breaks indent) with 0.
  cbn [breaks Ascii.eqb Bool.eqb Nat.add]. lia.
Qed.

Lemma single_line_intent_label (i : intent) :
  single_line (intent_label i) = true.
Proof. now destruct i. Qed.

(** X14: the selected intent enters the instruction through its
    [Email Intent] line only: for fields without line breaks, the
    instructions composed for two intents agree on every line but the
    fifth. *)
Theorem intent_changes_one_line (p r d o : string) (i1 i2 : intent) (n : nat) :
  single_line p = true -> single_line r = true ->
  single_line d = true -> single_line o = true ->
  n <> 4 ->
  lines (ai_prompt p (intent_label i1) r d o) !! n
  = lines (ai_prompt p (intent_label i2) r d o) !! n.
Proof.
  intros Hp Hr Hd Ho Hn.
  rewrite !ai_prompt_lines by (assumption || apply single_line_intent_label).
  unfold prompt_lines.
  do 4 (destruct n as [|n]; [reflexivity |]).
  destruct n as [|n]; [congruence |]. reflexivity.
Qed.

Lemma intent_changes_one_line_witness :
  lines (ai_prompt "Ask for the data" (intent_label Inquiry) "" "2024-05-15" "")
    !! 6
  = lines (ai_prompt "Ask for the data" (intent_label FollowUp) "" "2024-05-15" "")
      !! 6.
Proof.
  apply (intent_changes_one_line "Ask for the data" "" "2024-05-15" ""
           Inquiry FollowUp 6 eq_refl eq_refl eq_refl eq_refl).
  discriminate.
Defined.


End PromptProperties.

(** ** The lines of the instruction, for any fields *)

Section InstructionLines.

Import Py.

Lemma lines_app_break (a b : string) :
  lines (a +:+ nl +:+ b) = lines a ++ lines b.
Proof.
  induction a as [|c a IH]; [reflexivity |].
  rewrite app_cons. cbn [lines]. rewrite IH.
  destruct (Ascii.eqb c "010"); [reflexivity |].
  destruct (lines a) as [|l ls] eqn:E; [now apply lines_not_nil in E |].
  reflexivity.
Qed.

Lemma lines_prefix (a s : string) :
  single_line a = true ->
  lines (a +:+ s)
  = match lines s with
    | first :: rest => (a +:+ first) :: rest
    | [] => [a]
    end.
Proof.
  induction a as [|c a IH]; intros Ha.
  - rewrite app_nil.
    destruct (lines s) eqn:E; [now apply lines_not_nil in E | reflexivity].
  - rewrite app_cons. cbn [lines]. cbn [single_line] in Ha.
    destruct (Ascii.eqb c "010"); [discriminate |].
    rewrite (IH Ha). destruct (lines s); reflexivity.
Qed.

Lemma lines_join_concat (ls : list string) :
  ls <> [] -> lines (join nl ls) = concat (map lines ls).
Proof.
  induction ls as [|a ls IH]; [congruence |]. intros _.
  destruct ls as [|b ls].
  - cbn. now rewrite app_nil_r.
  - change (join nl (a :: b :: ls)) with (a +:+ nl +:+ join nl (b :: ls)).
    rewrite lines_app_break, IH by discriminate. reflexivity.
Qed.

Lemma lines_labelled (label v : string) :
  single_line label = true ->
  lines (indent +:+ label +:+ v)
  = match lines v with
    | first :: rest => (indent +:+ label +:+ first) :: rest
    | [] => []
    end.
Proof.
  intros Hl. rewrite <- app_assoc_string, lines_prefix.
  - destruct (lines v) eqn:E; [now apply lines_not_nil in E |].
    now rewrite app_assoc_string.
  - rewrite single_line_app, Hl. reflexivity.
Qed.

(** C1, amended: for any fields, the lines of the instruction are the
    template's, in order. An optional detail that is empty contributes
    exactly one line, the indentation alone: its line is left blank, not
    omitted. One that is non-empty contributes, in that place, the
    indentation, its fixed label and its value verbatim: the label is
    followed on its line by the first line of the value, the value's
    further lines follow unchanged, so the contribution is one line when
    the value has no line break and one more for each line break in it. *)
Theorem optional_details_fill_their_lines (p i r d o : string) :
  let paper :=
    if truthy d
    then match lines d with
         | first :: rest =>
             (indent +:+ "Relevant Paper/Manuscript Details: " +:+ first) :: rest
         | [] => []
         end
    else [indent] in
  let other :=
    if truthy o
    then match lines o with
         | first :: rest =>
             (indent +:+ "Other Specific Information: " +:+ first) :: rest
         | [] => []
         end
    else [indent] in
  lines (ai_prompt p i r d o)
  = [ "";
      indent +:+ "Draft a professional academic email with the following details:";
      "" ]
    ++ lines (indent +:+ "Recipient Name: " +:+ (if truthy r then r else "Colleague"))
    ++ lines (indent +:+ "Email Intent: " +:+ i)
    ++ lines (indent +:+ "Core Message/Key Points: " +:+ p)
    ++ paper
    ++ other
    ++ [ "";
         indent +:+ "Please structure the email appropriately with a subject line, salutation, body, and closing.";
         indent +:+ "Ensure the tone is professional and academic.";
         indent ]
  /\ length paper = S (breaks d)
  /\ length other = S (breaks o).
Proof.
  intros paper other.
  assert (Hpaper : lines (indent +:+ paper_field d) = paper).
  { unfold paper_field, paper. destruct (truthy d).
    - now apply lines_labelled.
    - reflexivity. }
  assert (Hother : lines (indent +:+ other_field o) = other).
  { unfold other_field, other. destruct (truthy o).
    - now apply lines_labelled.
    - reflexivity. }
  split; [| split].
  - rewrite ai_prompt_join, lines_join_concat by discriminate.
    unfold prompt_lines. cbn [map concat].
    rewrite Hpaper, Hother, app_nil_r. reflexivity.
  - rewrite <- Hpaper, length_lines, breaks_app, breaks_paper_field.
    reflexivity.
  - rewrite <- Hother, length_lines, breaks_app, breaks_other_field.
    reflexivity.
Qed.

End InstructionLines.
